(** * DevOps-Guardian: watermarking module, configuration and schema migration

    A shallow embedding of
    - [watermarking.js] (license check, integrity check, start-up routine and
      the Vite watermark plugin),
    - the configuration objects of [server/config.ts] as printed in
      [README.md], and
    - the migration script [create_enum.sql],
    followed by the properties stated about them.

    JavaScript strings are modelled as [string] (their UTF-8 bytes),
    [process.env] as a finite map from names to strings, instants as
    milliseconds since the epoch in [Z]. *)

From Stdlib Require Import ZArith Lia List Ascii String.
From stdpp Require Import base option list strings gmap pretty.

Open Scope Z_scope.

(** ** JavaScript strings *)

Module JsString.

(** [s.startsWith(p)] *)
Definition startsWith (s p : string) : bool := String.prefix p s.

(** [s.includes(p)]: [p] starts at some position of [s]. *)
Fixpoint includes (s p : string) : bool :=
  startsWith s p ||
  match s with
  | EmptyString => false
  | String _ s' => includes s' p
  end.

(** [s.endsWith(p)]: some tail of [s] is [p]. *)
Fixpoint endsWith (s p : string) : bool :=
  String.eqb s p ||
  match s with
  | EmptyString => false
  | String _ s' => endsWith s' p
  end.

(** The two relations the boolean tests decide. *)
Definition Contains (s p : string) : Prop := exists a b, s = a +:+ p +:+ b.
Definition EndsWith (s p : string) : Prop := exists a, s = a +:+ p.

(** A JavaScript string is truthy when it is not empty. *)
Definition truthy (s : string) : bool := negb (String.eqb s "").

(** [s || d] on strings. *)
Definition or_else (s d : string) : string := if truthy s then s else d.

End JsString.

(** ** [Buffer.from(s).toString('base64')] *)

Module Base64.

Definition alphabet : string :=
  "ABCDEFGHIJKLMNOPQRSTUVWXYZabcdefghijklmnopqrstuvwxyz0123456789+/".

Definition digit (n : N) : ascii :=
  match String.get (N.to_nat n) alphabet with
  | Some c => c
  | None => "="%char
  end.

Definition cons4 (a b c d : ascii) (s : string) : string :=
  String a (String b (String c (String d s))).

Fixpoint encode_bytes (l : list N) : string :=
  match l with
  | [] => ""
  | [a] =>
      cons4 (digit (N.shiftr a 2))
            (digit (N.shiftl (N.land a 3) 4))
            "=" "=" ""
  | [a; b] =>
      cons4 (digit (N.shiftr a 2))
            (digit (N.lor (N.shiftl (N.land a 3) 4) (N.shiftr b 4)))
            (digit (N.shiftl (N.land b 15) 2))
            "=" ""
  | a :: b :: c :: rest =>
      cons4 (digit (N.shiftr a 2))
            (digit (N.lor (N.shiftl (N.land a 3) 4) (N.shiftr b 4)))
            (digit (N.lor (N.shiftl (N.land b 15) 2) (N.shiftr c 6)))
            (digit (N.land c 63))
            (encode_bytes rest)
  end.

Fixpoint bytes_of (s : string) : list N :=
  match s with
  | EmptyString => []
  | String c s' => N_of_ascii c :: bytes_of s'
  end.

Definition encode (s : string) : string := encode_bytes (bytes_of s).

End Base64.

(** ** Dates *)

Module JsDate.

Definition msPerDay : Z := 86400000.

(** ECMAScript [DayFromYear]. *)
Definition DayFromYear (y : Z) : Z :=
  365 * (y - 1970) + (y - 1969) / 4 - (y - 1901) / 100 + (y - 1601) / 400.

Definition isLeap (y : Z) : bool :=
  ((y mod 4 =? 0) && negb (y mod 100 =? 0)) || (y mod 400 =? 0).

Definition daysInMonth (y m : Z) : Z :=
  if m =? 2 then (if isLeap y then 29 else 28)
  else if (m =? 4) || (m =? 6) || (m =? 9) || (m =? 11) then 30
  else 31.

(** Days of the year before the first of month [m] (1..12). *)
Fixpoint daysBefore (y : Z) (m : nat) : Z :=
  match m with
  | O => 0
  | S k =>
      match k with
      | O => 0
      | S _ => daysBefore y k + daysInMonth y (Z.of_nat k)
      end
  end.

(** [Date.UTC(y, m - 1, d)] for a calendar date. *)
Definition utc (y m d : Z) : Z :=
  (DayFromYear y + daysBefore y (Z.to_nat m) + (d - 1)) * msPerDay.

Definition digit_of (c : ascii) : option Z :=
  let n := Z.of_N (N_of_ascii c) in
  if (48 <=? n) && (n <=? 57) then Some (n - 48) else None.

Fixpoint number_of (ds : list ascii) (acc : Z) : option Z :=
  match ds with
  | [] => Some acc
  | c :: ds' =>
      match digit_of c with
      | Some d => number_of ds' (10 * acc + d)
      | None => None
      end
  end.

(** The date-only form [YYYY-MM-DD] of the ECMAScript date-time string
    format, which denotes midnight UTC.  Only real calendar dates are
    accepted here; every other string is left to the engine. *)
Definition parse_date_only (s : string) : option Z :=
  match list_ascii_of_string s with
  | [y1; y2; y3; y4; "-"%char; m1; m2; "-"%char; d1; d2] =>
      match number_of [y1; y2; y3; y4] 0,
            number_of [m1; m2] 0,
            number_of [d1; d2] 0 with
      | Some y, Some m, Some d =>
          if (1 <=? m) && (m <=? 12) && (1 <=? d) && (d <=? daysInMonth y m)
          then Some (utc y m d)
          else None
      | _, _, _ => None
      end
  | _ => None
  end.

(** The calendar day (days since the epoch) of an instant for a zone
    [offset] minutes east of UTC. *)
Definition local_day (offset : Z) (t : Z) : Z := (t + offset * 60000) / msPerDay.
Definition utc_day (t : Z) : Z := local_day 0 t.

End JsDate.

(** ** What the module takes from the JavaScript engine and from [crypto] *)

Record Runtime := {
  (** [Date.parse] on strings that are not a date-only calendar date
      ([None] is NaN). *)
  parse_other : string -> option Z;
  (** [crypto.createHmac('sha256', key).update(data).digest('hex')] *)
  hmac_sha256_hex : string -> string -> string;
  (** [Date.prototype.toISOString] and [getFullYear] of an instant *)
  toISOString : Z -> string;
  getFullYear : Z -> Z
}.

(** ** Console output and exceptions *)

Inductive LogLevel := LDebug | LLog | LWarn | LError.

Record LogEntry := { level : LogLevel; args : list string }.

Inductive JsError :=
| TypeError (msg : string)
| Thrown (msg : string).

Definition error_text (e : JsError) : string :=
  match e with
  | TypeError m => "TypeError: " +:+ m
  | Thrown m => m
  end.

Inductive Completion (A : Type) :=
| Normal (a : A)
| Throw (e : JsError).
Arguments Normal {A} a.
Arguments Throw {A} e.

(** A computation writes to the console and then returns or throws. *)
Definition M (A : Type) : Type := (list LogEntry * Completion A)%type.

Definition ret {A} (a : A) : M A := ([], Normal a).
Definition throw {A} (e : JsError) : M A := ([], Throw e).

Definition bind {A B} (m : M A) (k : A -> M B) : M B :=
  match m with
  | (out, Normal a) => let '(out', r) := k a in (out ++ out', r)
  | (out, Throw e) => (out, Throw e)
  end.

(** [try { m } catch (error) { h error }] *)
Definition try_catch {A} (m : M A) (h : JsError -> M A) : M A :=
  match m with
  | (out, Normal a) => (out, Normal a)
  | (out, Throw e) => let '(out', r) := h e in (out ++ out', r)
  end.

Definition console (l : LogLevel) (xs : list string) : M unit :=
  ([ {| level := l; args := xs |} ], Normal tt).

Definition output {A} (m : M A) : list LogEntry := fst m.
Definition outcome {A} (m : M A) : Completion A := snd m.

Notation "'let*' x ':=' m 'in' k" := (bind m (fun x => k))
  (at level 10, x name, m at level 100, k at level 200).
Notation "m ';;;' k" := (bind m (fun _ => k))
  (at level 100, k at level 200, right associativity).

(** ** watermarking.js *)

Module Watermarking.

(** The object a license key decodes to; an absent property reads as
    [undefined], here [None]. *)
Record License := {
  expiresAt : option string;
  allowedInstances : option (list string);
  features : option (list string);
  customer : option string
}.

(** [obj.prop] where [obj] may be [null] or [undefined] ([None]). *)
Definition get_prop {A} (obj : option License) (prop : License -> A) : M A :=
  match obj with
  | Some o => ret (prop o)
  | None => throw (TypeError "Cannot read properties of undefined")
  end.

(** [arr.includes(x)] where [arr] may be [undefined]. *)
Definition Array_includes (arr : option (list string)) (x : string) : M bool :=
  match arr with
  | Some l => ret (bool_decide (x ∈ l))
  | None => throw (TypeError "Cannot read properties of undefined (reading 'includes')")
  end.

Section WithRuntime.

Variable rt : Runtime.

(** [Date.parse]: the time value of a string, [None] for NaN. *)
Definition Date_parse (s : string) : option Z :=
  match JsDate.parse_date_only s with
  | Some t => Some t
  | None => parse_other rt s
  end.

(** The time value of [new Date(v)] for a string or [undefined]. *)
Definition new_Date (v : option string) : option Z :=
  match v with
  | Some s => Date_parse s
  | None => None
  end.

(** [a < b] on time values: false as soon as one of them is NaN. *)
Definition date_lt (a b : option Z) : bool :=
  match a, b with
  | Some x, Some y => x <? y
  | _, _ => false
  end.

Definition generateSourceWatermark (key instanceId : string) (now1 now2 : Z) : string :=
  let timestamp := toISOString rt now1 in
  let data := instanceId +:+ "-" +:+ timestamp in
  let hash := String.substring 0 16 (hmac_sha256_hex rt key data) in
  "DGWM-" +:+ hash +:+ "-" +:+ pretty (getFullYear rt now2).

Definition generateBuildWatermark (licenseHolder version : string) (now : Z) : string :=
  let buildId := now in
  "/* DevOps-guardians v" +:+ version +:+ " - Licensed to: " +:+ licenseHolder
    +:+ " - Build: " +:+ pretty buildId +:+ " */".

(** The placeholder decoder of the module. *)
Definition decodeLicenseKey (licenseKey : string) : M (option License) :=
  ret (Some {|
    expiresAt := Some "2026-12-31";
    allowedInstances := Some ["default-instance"; "production-1"; "staging-1"];
    features := Some ["all"];
    customer := Some "Example Customer"
  |}).

Section WithDecoder.

(** [verifyLicense] calls whatever [decodeLicenseKey] is in scope. *)
Variable decode : string -> M (option License).

(** The [try] block; [now] is the instant read by [new Date()]. *)
Definition verifyLicense_try (now : Z) (licenseKey instanceId : string) : M bool :=
  let* decodedLicense := decode licenseKey in
  let currentDate := Some now in
  let* expires := get_prop decodedLicense expiresAt in
  if date_lt (new_Date expires) currentDate then
    console LWarn ["License has expired"] ;;;
    ret false
  else
    let* allowed := get_prop decodedLicense allowedInstances in
    let* found := Array_includes allowed instanceId in
    if negb found then
      console LWarn ["Instance ID not authorized for this license"] ;;;
      ret false
    else ret true.

Definition verifyLicense_with (now : Z) (licenseKey instanceId : string) : M bool :=
  try_catch (verifyLicense_try now licenseKey instanceId)
    (fun error =>
       console LError ["Error verifying license:"; error_text error] ;;;
       ret false).

End WithDecoder.

Definition verifyLicense : Z -> string -> string -> M bool :=
  verifyLicense_with decodeLicenseKey.

(** The placeholder integrity check: no hash is verified. *)
Definition checkCodeIntegrity : bool := true.

(** [process.env.NAME || fallback] *)
Definition env_or (env : gmap string string) (name fallback : string) : string :=
  match env !! name with
  | Some v => JsString.or_else v fallback
  | None => fallback
  end.

(** Truthiness of [process.env.NAME]. *)
Definition env_truthy (env : gmap string string) (name : string) : bool :=
  match env !! name with
  | Some v => JsString.truthy v
  | None => false
  end.

(** [now], [now1] and [now2] are the three readings of the clock, in
    program order. *)
Definition initializeWatermarking (env : gmap string string) (now now1 now2 : Z) : M unit :=
  let instanceId := env_or env "INSTANCE_ID" "default-instance" in
  (if negb (env_truthy env "LICENSE_KEY") then
     console LWarn ["Application running in unregistered mode"]
   else
     let licenseKey := default "" (env !! "LICENSE_KEY") in
     let* isValid := verifyLicense now licenseKey instanceId in
     if negb isValid then console LError ["Invalid license detected"]
     else ret tt) ;;;
  let codeIntegrity := checkCodeIntegrity in
  (if negb codeIntegrity then
     console LError ["Code integrity violation detected"]
   else ret tt) ;;;
  let watermark :=
    generateSourceWatermark (env_or env "WATERMARK_KEY" "default-key") instanceId now1 now2 in
  console LDebug ["Application initialized " +:+ Base64.encode watermark].

End WithRuntime.

(** The instances the placeholder license names, and the instant its
    [expiresAt] denotes: 2026-12-31T00:00:00.000Z. *)
Definition placeholder_instances : list string :=
  ["default-instance"; "production-1"; "staging-1"].
Definition placeholder_expiry : Z := 1798675200000.

(** "The current date is on or before 2026-12-31", read on the calendar
    of a zone [offset] minutes east of UTC. *)
Definition on_or_before_2026_12_31 (offset now : Z) : Prop :=
  JsDate.local_day offset now <= JsDate.utc_day (JsDate.utc 2026 12 31).

Definition integrity_violation : LogEntry :=
  {| level := LError; args := ["Code integrity violation detected"] |}.

End Watermarking.

(** ** The Vite watermark plugin *)

Module VitePlugin.

(** The [options] argument; a property left out is [None]. *)
Record Options := {
  licenseHolder : option string;
  version : option string;
  exclude : option (list string);
  include : option (list string);
  customText : option string;
  encodeWatermark : option bool
}.

(** [watermarkPlugin()] called with no argument: [options = {}]. *)
Definition no_options : Options :=
  {| licenseHolder := None; version := None; exclude := None;
     include := None; customText := None; encodeWatermark := None |}.

Record Plugin := {
  name : string;
  (** [transform(code, id)]; [None] is [null] *)
  transform : string -> string -> option string
}.

(** [buildId] is the reading of [Date.now()] when the plugin is made. *)
Definition watermarkPlugin (options : Options) (env : gmap string string) (buildId : Z) : Plugin :=
  let licenseHolder :=
    default (Watermarking.env_or env "LICENSE_HOLDER" "Unregistered") (licenseHolder options) in
  let version :=
    default (Watermarking.env_or env "npm_package_version" "1.0.0") (version options) in
  let exclude := default ["node_modules"; ".json"; ".css"; ".html"] (exclude options) in
  let include := default [".js"; ".jsx"; ".ts"; ".tsx"] (include options) in
  let customText := default "" (customText options) in
  let encodeWatermark := default false (encodeWatermark options) in
  {| name := "devops-guardians-watermark";
     transform := fun code id =>
       if existsb (fun pattern => JsString.includes id pattern) exclude then None
       else if negb (existsb (fun ext => JsString.endsWith id ext) include) then None
       else
         let watermark :=
           "/* DevOps-guardians v" +:+ version +:+ " - Licensed to: " +:+ licenseHolder
             +:+ " - Build: " +:+ pretty buildId in
         let watermark :=
           if JsString.truthy customText then watermark +:+ " - " +:+ customText
           else watermark in
         let watermark := watermark +:+ " */" in
         let watermark :=
           if encodeWatermark then "/* " +:+ Base64.encode watermark +:+ " */"
           else watermark in
         Some (watermark +:+ String "010" code) |}.

(** The lists the plugin works with, as [watermarkPlugin] resolves them. *)
Definition exclude_of (options : Options) : list string :=
  default ["node_modules"; ".json"; ".css"; ".html"] (exclude options).
Definition include_of (options : Options) : list string :=
  default [".js"; ".jsx"; ".ts"; ".tsx"] (include options).

(** A text that opens with the block-comment opener and closes with the
    closer. *)
Definition BlockComment (w : string) : Prop :=
  exists body, w = "/*" +:+ body +:+ "*/".




End VitePlugin.

(** ** server/config.ts *)

Module Config.

Record MonitoringConfig := {
  defaultCheckInterval : Z;  (* seconds *)
  defaultTimeout : Z;        (* seconds *)
  maxRetries : Z;
  retryDelay : Z;            (* seconds *)
  metricRetention : Z        (* days *)
}.

Definition monitoringConfig : MonitoringConfig := {|
  defaultCheckInterval := 60;
  defaultTimeout := 30;
  maxRetries := 3;
  retryDelay := 5;
  metricRetention := 365
|}.

Definition is_space (c : ascii) : bool :=
  let n := N_of_ascii c in
  ((9 <=? n) && (n <=? 13))%N || (n =? 32)%N.

Fixpoint skip_spaces (s : string) : string :=
  match s with
  | String c s' => if is_space c then skip_spaces s' else s
  | EmptyString => s
  end.

Fixpoint leading_digits (s : string) (acc : option Z) : option Z :=
  match s with
  | String c s' =>
      match JsDate.digit_of c with
      | Some d => leading_digits s' (Some (10 * default 0 acc + d))
      | None => acc
      end
  | EmptyString => acc
  end.

(** [parseInt(s, 10)]; [None] is NaN. *)
Definition parseInt10 (s : string) : option Z :=
  match skip_spaces s with
  | String "-" s' => Z.opp <$> leading_digits s' None
  | String "+" s' => leading_digits s' None
  | s' => leading_digits s' None
  end.

Record Auth := { user : option string; pass : option string }.

Record EmailConfig := {
  email_enabled : bool;
  host : option string;
  port : option Z;
  secure : bool;
  auth : Auth;
  from : string
}.

Record TwilioConfig := {
  enabled : bool;
  accountSid : option string;
  authToken : option string;
  phoneNumber : option string
}.

Record NotificationConfig := {
  email : EmailConfig;
  sms : TwilioConfig;
  call : TwilioConfig
}.

(** [process.env.NAME === 'true'] *)
Definition env_is (env : gmap string string) (name value : string) : bool :=
  bool_decide (env !! name = Some value).

Definition notificationConfig (env : gmap string string) : NotificationConfig := {|
  email := {|
    email_enabled := if Watermarking.env_truthy env "SMTP_HOST" then true else false;
    host := env !! "SMTP_HOST";
    port := parseInt10 (Watermarking.env_or env "SMTP_PORT" "587");
    secure := env_is env "SMTP_SECURE" "true";
    auth := {| user := env !! "SMTP_USER"; pass := env !! "SMTP_PASSWORD" |};
    from := Watermarking.env_or env "EMAIL_FROM" "alerts@devops-guardian.com"
  |};
  sms := {|
    enabled := if Watermarking.env_truthy env "TWILIO_ACCOUNT_SID" then true else false;
    accountSid := env !! "TWILIO_ACCOUNT_SID";
    authToken := env !! "TWILIO_AUTH_TOKEN";
    phoneNumber := env !! "TWILIO_PHONE_NUMBER"
  |};
  call := {|
    enabled := if Watermarking.env_truthy env "TWILIO_ACCOUNT_SID" then true else false;
    accountSid := env !! "TWILIO_ACCOUNT_SID";
    authToken := env !! "TWILIO_AUTH_TOKEN";
    phoneNumber := env !! "TWILIO_PHONE_NUMBER"
  |}
|}.

End Config.

(** ** create_enum.sql *)

Module Migration.

Inductive ColumnType :=
| TInteger
| TNamed (type_name : string).

Record Column := {
  column_name : string;
  data_type : ColumnType;
  not_null : bool;
  column_default : option Z
}.

(** The part of the catalog the script reads and writes: the enum types
    with their labels in order, and the tables with their columns. *)
Record Schema := {
  enum_types : gmap string (list string);
  tables : gmap string (list Column)
}.

Inductive SqlError :=
| DuplicateObject (what : string)
| UndefinedTable (what : string)
| DuplicateColumn (what : string).

(** [EXISTS (SELECT 1 FROM pg_type WHERE typname = n)]: enum types and
    the row types of tables are both rows of [pg_type]. *)
Definition pg_type_exists (s : Schema) (n : string) : bool :=
  bool_decide (is_Some (enum_types s !! n)) || bool_decide (is_Some (tables s !! n)).

(** [EXISTS (SELECT 1 FROM information_schema.columns
     WHERE table_name = t AND column_name = c)] *)
Definition column_exists (s : Schema) (t c : string) : bool :=
  match tables s !! t with
  | Some cols => existsb (fun col => String.eqb (column_name col) c) cols
  | None => false
  end.

(** [CREATE TYPE n AS ENUM (labels)] *)
Definition create_enum (n : string) (labels : list string) (s : Schema) : Schema + SqlError :=
  if pg_type_exists s n then inr (DuplicateObject n)
  else inl {| enum_types := <[n := labels]> (enum_types s); tables := tables s |}.

(** [ALTER TABLE t ADD COLUMN col] *)
Definition add_column (t : string) (col : Column) (s : Schema) : Schema + SqlError :=
  match tables s !! t with
  | None => inr (UndefinedTable t)
  | Some cols =>
      if existsb (fun c => String.eqb (column_name c) (column_name col)) cols
      then inr (DuplicateColumn (column_name col))
      else inl {| enum_types := enum_types s; tables := <[t := cols ++ [col]]> (tables s) |}
  end.

(** First [DO] block. *)
Definition block_enum (s : Schema) : Schema + SqlError :=
  if negb (pg_type_exists s "transaction_type") then
    create_enum "transaction_type" ["api"; "content"; "form"; "navigation"] s
  else inl s.

Definition check_interval_column : Column :=
  {| column_name := "check_interval"; data_type := TInteger;
     not_null := true; column_default := Some 300 |}.

(** Second [DO] block. *)
Definition block_column (s : Schema) : Schema + SqlError :=
  if negb (column_exists s "synthetic_transactions" "check_interval") then
    add_column "synthetic_transactions" check_interval_column s
  else inl s.

(** The statements of a script run one after the other, each in its own
    transaction; the first error stops the script and keeps what the
    earlier statements did. *)
Fixpoint run_script (blocks : list (Schema -> Schema + SqlError)) (s : Schema)
  : Schema * option SqlError :=
  match blocks with
  | [] => (s, None)
  | b :: rest =>
      match b s with
      | inl s' => run_script rest s'
      | inr e => (s, Some e)
      end
  end.

Definition migration : Schema -> Schema * option SqlError :=
  run_script [block_enum; block_column].

(** The default of a column of a table, when there is one. *)
Definition default_of (s : Schema) (t c : string) : option Z :=
  cols ← tables s !! t;
  col ← List.find (fun col => String.eqb (column_name col) c) cols;
  column_default col.

End Migration.

(** ** Retry coordinator *)

Module RetryCoordinator.

Inductive Outcome := success | failure | timeout.

Record SyntheticTransaction := {
  tx_timeout : Z;       (* seconds *)
  tx_maxRetries : nat;
  tx_retryDelay : Z     (* seconds *)
}.

(** What one call of the probe executor gives back: the outcome and the
    seconds it took. *)
Record Attempt := { attempt_outcome : Outcome; attempt_duration : Z }.

Record CheckResult := {
  outcome : Outcome;
  attempt : nat;      (* attempts used, 1 .. maxRetries + 1 *)
  elapsed : Z         (* seconds from the start of the first attempt *)
}.

(** Modelled from the spec: the Retry Coordinator of section 4.2, of which
    the repository holds no code.  It calls the probe executor up to
    [maxRetries + 1] times, waits [retryDelay] seconds after a failed
    attempt that is not the last, stops at the first success, and returns
    the final result with the number of attempts used.  [probe n] is the
    [n]-th call of the probe executor; [left] counts the retries that
    remain and [clock] the seconds elapsed so far. *)
Fixpoint retry_loop (probe : nat -> Attempt) (tx : SyntheticTransaction)
    (n : nat) (left : nat) (clock : Z) : CheckResult :=
  let a := probe n in
  let clock := clock + attempt_duration a in
  match attempt_outcome a, left with
  | success, _ => {| outcome := success; attempt := n; elapsed := clock |}
  | o, O => {| outcome := o; attempt := n; elapsed := clock |}
  | _, S left' => retry_loop probe tx (S n) left' (clock + tx_retryDelay tx)
  end.

(** Modelled from the spec: one check of a transaction (section 4.2). *)
Definition run_check (probe : nat -> Attempt) (tx : SyntheticTransaction) : CheckResult :=
  retry_loop probe tx 1 (tx_maxRetries tx) 0.

(** Modelled from the spec: the probe executor keeps its contract
    (section 4.1) when every attempt ends within [timeout] seconds. *)
Definition within_timeout (probe : nat -> Attempt) (tx : SyntheticTransaction) : Prop :=
  forall n, 0 <= attempt_duration (probe n) <= tx_timeout tx.

End RetryCoordinator.

(** ** The other hooks of the Vite plugin *)

Module ViteHooks.

(** The double-quote character. *)
Definition dquote : string := String "034" EmptyString.

(** [s] without its first [n] characters. *)
Fixpoint skip (n : nat) (s : string) : string :=
  match n, s with
  | O, _ => s
  | S n', String _ s' => skip n' s'
  | S _, EmptyString => EmptyString
  end.

(** [s.replace(pattern, replacement)] for a string pattern and a
    replacement text without [$]: only the first occurrence is replaced. *)
Fixpoint replace (s pattern replacement : string) : string :=
  if JsString.startsWith s pattern then
    replacement +:+ skip (String.length pattern) s
  else
    match s with
    | EmptyString => EmptyString
    | String c s' => String c (replace s' pattern replacement)
    end.

Definition buildMeta (buildId : Z) : string :=
  "<meta name=" +:+ dquote +:+ "build-id" +:+ dquote +:+ " content=" +:+ dquote
    +:+ pretty buildId +:+ dquote +:+ ">".

(** [transformIndexHtml(html)] of the plugin made at [buildId]. *)
Definition transformIndexHtml (buildId : Z) (html : string) : string :=
  replace html "</head>" ("  " +:+ buildMeta buildId +:+ String "010" "</head>").

(** [closeBundle()] of the plugin made at [buildId]. *)
Definition closeBundle (env : gmap string string) (buildId : Z) : M unit :=
  if Config.env_is env "NODE_ENV" "production" then
    console LLog [String "010" "📝 DevOps-guardians Watermarking: Production build "
                    +:+ pretty buildId +:+ " has been watermarked." +:+ String "010" ""]
  else ret tt.

(** The character [c] occurs in [s]. *)
Fixpoint occurs (c : ascii) (s : string) : bool :=
  match s with
  | EmptyString => false
  | String d s' => Ascii.eqb c d || occurs c s'
  end.

End ViteHooks.

(** ** server/config.ts: session, server and auth settings *)

Module AppConfig.

Record Cookie := { maxAge : Z; cookie_secure : bool }.

Record SessionConfig := {
  secret : string;
  cookie : Cookie;
  resave : bool;
  saveUninitialized : bool
}.

Definition default_session_secret : string := "default-secret-change-in-production".
Definition default_jwt_secret : string := "default-jwt-secret-change-in-production".

Definition sessionConfig (env : gmap string string) : SessionConfig := {|
  secret := Watermarking.env_or env "SESSION_SECRET" default_session_secret;
  cookie := {| maxAge := 7 * 24 * 60 * 60 * 1000;
               cookie_secure := Config.env_is env "NODE_ENV" "production" |};
  resave := false;
  saveUninitialized := false
|}.

Record ServerConfig := { server_port : option Z; server_host : string }.

Definition serverConfig (env : gmap string string) : ServerConfig := {|
  server_port := Config.parseInt10 (Watermarking.env_or env "PORT" "5000");
  server_host := Watermarking.env_or env "HOST" "0.0.0.0"
|}.

Record AuthConfig := {
  jwtSecret : string;
  jwtExpiresIn : string;
  bcryptSaltRounds : Z
}.

Definition authConfig (env : gmap string string) : AuthConfig := {|
  jwtSecret := Watermarking.env_or env "JWT_SECRET" default_jwt_secret;
  jwtExpiresIn := "7d";
  bcryptSaltRounds := 12
|}.

(** [Number.MAX_SAFE_INTEGER]: up to it every integer is a JavaScript
    number of its own. *)
Definition max_safe_integer : Z := 9007199254740991.

(** A text starts with a decimal digit. *)
Definition starts_with_digit (s : string) : bool :=
  match s with
  | String c _ => bool_decide (is_Some (JsDate.digit_of c))
  | EmptyString => false
  end.

End AppConfig.

(** ** Shapes of a catalog *)

Module Catalog.

(** No table has two columns of the same name. *)
Definition unique_columns (s : Migration.Schema) : Prop :=
  forall t cols, Migration.tables s !! t = Some cols ->
                 NoDup (Migration.column_name <$> cols).

End Catalog.

(** ** Values used to run the definitions *)

Module Samples.

(** An engine that knows no other date format; the HMAC, the ISO string
    and the year are fixed texts. *)
Definition runtime : Runtime := {|
  parse_other := fun _ => None;
  hmac_sha256_hex := fun _ _ => "00112233445566778899aabbccddeeff";
  toISOString := fun _ => "2026-12-31T12:00:00.000Z";
  getFullYear := fun _ => 2026
|}.

(** Noon UTC on 2026-12-31. *)
Definition noon_2026_12_31 : Z := JsDate.utc 2026 12 31 + 12 * 3600000.

(** A decoder that rejects every key. *)
Definition failing_decoder (licenseKey : string) : M (option Watermarking.License) :=
  throw (Thrown "jwt malformed").

Definition bare_table : Migration.Schema :=
  {| Migration.enum_types := ∅;
     Migration.tables := {[ "synthetic_transactions" :=
       [ {| Migration.column_name := "id"; Migration.data_type := Migration.TInteger;
            Migration.not_null := true; Migration.column_default := None |} ] ]} |}.

Definition always_failing (n : nat) : RetryCoordinator.Attempt :=
  {| RetryCoordinator.attempt_outcome := RetryCoordinator.failure;
     RetryCoordinator.attempt_duration := 2 |}.

Definition default_transaction : RetryCoordinator.SyntheticTransaction :=
  {| RetryCoordinator.tx_timeout := 30;
     RetryCoordinator.tx_maxRetries := 3;
     RetryCoordinator.tx_retryDelay := 5 |}.

(** A decoder for a license that names no expiry. *)
Definition perpetual_decoder (licenseKey : string) : M (option Watermarking.License) :=
  ret (Some {| Watermarking.expiresAt := None;
               Watermarking.allowedInstances := Some ["edge-7"];
               Watermarking.features := None;
               Watermarking.customer := None |}).

(** Plugin options whose license holder tries to close the comment. *)
Definition hostile_options : VitePlugin.Options :=
  {| VitePlugin.licenseHolder := Some "*/ alert(1) /*";
     VitePlugin.version := None;
     VitePlugin.exclude := None; VitePlugin.include := None;
     VitePlugin.customText := None;
     VitePlugin.encodeWatermark := Some true |}.



Definition two_heads : string := "<head></head><body></head></body>".

End Samples.

(** ** The defaults the specification gives a transaction *)

Module SpecDefaults.

(** Specification, data model: [timeout] default 30, [maxRetries]
    default 3, [retryDelay] default 5; results are pruned after
    [metricRetention] days, default 365. *)
Definition timeout : Z := 30.
Definition maxRetries : Z := 3.
Definition retryDelay : Z := 5.
Definition metricRetention : Z := 365.

End SpecDefaults.

(** * Properties *)

(** ** The runtime functions on known values *)

Example base64_known :
  Base64.encode "Man" = "TWFu" /\ Base64.encode "Ma" = "TWE="
  /\ Base64.encode "M" = "TQ==" /\ Base64.encode "/* x */" = "LyogeCAqLw==".
Proof. repeat split. Qed.

Example utc_known :
  JsDate.utc 1970 1 1 = 0 /\ JsDate.utc 2000 3 1 = 951868800000
  /\ JsDate.utc 2026 12 31 = 1798675200000.
Proof. repeat split. Qed.

Example parse_date_only_known :
  JsDate.parse_date_only "2024-02-29" = Some 1709164800000
  /\ JsDate.parse_date_only "2023-02-29" = None
  /\ JsDate.parse_date_only "31/12/2026" = None.
Proof. repeat split. Qed.

Example parseInt10_known :
  Config.parseInt10 "587" = Some 587 /\ Config.parseInt10 " 25 tcp" = Some 25
  /\ Config.parseInt10 "-4" = Some (-4) /\ Config.parseInt10 "smtp" = None.
Proof. repeat split. Qed.

Example string_tests_known :
  JsString.includes "src/node_modules/a.js" "node_modules" = true
  /\ JsString.includes "src/app.ts" ".json" = false
  /\ JsString.endsWith "src/app.tsx" ".tsx" = true
  /\ JsString.endsWith "src/app.tsx" ".ts" = false
  /\ JsString.includes "src/app.ts" "" = true.
Proof. repeat split. Qed.

(** ** Strings *)

Lemma append_cons (c : ascii) (a b : string) : String c a +:+ b = String c (a +:+ b).
Proof. reflexivity. Qed.

Lemma append_empty_l (b : string) : "" +:+ b = b.
Proof. reflexivity. Qed.

Lemma append_assoc (a b c : string) : (a +:+ b) +:+ c = a +:+ (b +:+ c).
Proof.
  induction a as [|x a IH]; [reflexivity|].
  rewrite !append_cons. by rewrite IH.
Qed.

Lemma startsWith_spec (s p : string) :
  JsString.startsWith s p = true <-> exists b, s = p +:+ b.
Proof.
  unfold JsString.startsWith. revert s.
  induction p as [|c p IH]; intros [|d s]; simpl.
  - split; [intros _; by exists "" | done].
  - split; [intros _; by exists (String d s) | done].
  - split; [done | intros [b Hb]; discriminate].
  - destruct (ascii_dec c d) as [->|Hne].
    + rewrite IH. split; intros [b Hb]; exists b.
      * rewrite append_cons. by rewrite Hb.
      * rewrite append_cons in Hb. by injection Hb.
    + split; [done|]. intros [b Hb]. rewrite append_cons in Hb.
      injection Hb as Hcd _. congruence.
Qed.

Lemma includes_unfold (s p : string) :
  JsString.includes s p =
  JsString.startsWith s p ||
  match s with EmptyString => false | String _ s' => JsString.includes s' p end.
Proof. by destruct s. Qed.


Lemma includes_spec (s p : string) :
  JsString.includes s p = true <-> JsString.Contains s p.
Proof.
  unfold JsString.Contains. split.
  - induction s as [|c s IH]; rewrite includes_unfold, orb_true_iff.
    + intros [H|H]; [|done]. apply startsWith_spec in H as [b Hb].
      by exists "", b.
    + intros [H|H].
      * apply startsWith_spec in H as [b Hb]. by exists "", b.
      * destruct (IH H) as (a & b & Hab). exists (String c a), b.
        rewrite append_cons. by rewrite Hab.
  - intros (a & b & Hab). revert s Hab.
    induction a as [|c a IH]; intros s Hab;
      rewrite includes_unfold, orb_true_iff.
    + left. apply startsWith_spec. by exists b.
    + rewrite append_cons in Hab. subst s. right. by apply IH.
Qed.


Lemma existsb_includes (id : string) (pats : list string) :
  existsb (fun pattern => JsString.includes id pattern) pats = true
  <-> exists pat, pat ∈ pats /\ JsString.Contains id pat.
Proof.
  rewrite existsb_exists. split; intros (x & Hx & H); exists x.
  - split; [by apply list_elem_of_In | by apply includes_spec].
  - split; [by apply list_elem_of_In | by apply includes_spec].
Qed.


(** ** The Vite plugin *)

Lemma block_comment_close (y : string) :
  VitePlugin.BlockComment (("/*" +:+ y) +:+ " */").
Proof.
  exists (y +:+ " "). rewrite !append_assoc. reflexivity.
Qed.

Lemma block_comment_encoded (enc : string) :
  VitePlugin.BlockComment ("/* " +:+ enc +:+ " */").
Proof.
  exists (" " +:+ enc +:+ " "). rewrite !append_assoc. reflexivity.
Qed.

(** ** The license check *)

Import Watermarking.

Example placeholder_expiry_is_midnight_utc :
  JsDate.parse_date_only "2026-12-31" = Some placeholder_expiry
  /\ JsDate.utc 2026 12 31 = placeholder_expiry.
Proof. split; reflexivity. Qed.

Lemma date_lt_false (a : option Z) (now : Z) :
  date_lt a (Some now) = false <-> forall t, a = Some t -> now <= t.
Proof.
  destruct a as [t|]; simpl.
  - rewrite Z.ltb_ge. split; [intros H t' [= <-]; done | intros H; by apply H].
  - split; [intros _ t [=] | done].
Qed.

Ltac unfold_verify :=
  unfold verifyLicense_with, verifyLicense_try, outcome, output, bind, try_catch,
    get_prop, Array_includes, ret, throw, console.

Lemma verifyLicense_with_true (rt : Runtime) (decode : string -> M (option License))
    (now : Z) (licenseKey instanceId : string) :
  outcome (verifyLicense_with rt decode now licenseKey instanceId) = Normal true
  <-> exists lic,
        outcome (decode licenseKey) = Normal (Some lic)
        /\ date_lt (new_Date rt (expiresAt lic)) (Some now) = false
        /\ exists l, allowedInstances lic = Some l /\ instanceId ∈ l.
Proof.
  unfold_verify.
  destruct (decode licenseKey) as [out [[lic|]|e]]; simpl.
  - destruct (date_lt _ _) eqn:Hlt; simpl.
    + split; [done|]. intros (lic' & [= <-] & Hlt' & _). congruence.
    + destruct (allowedInstances lic) as [l|] eqn:Hal; simpl.
      * destruct (bool_decide (instanceId ∈ l)) eqn:Hin; simpl.
        -- apply bool_decide_eq_true in Hin. split; [|done].
           intros _. exists lic. repeat split; [done|]. by exists l.
        -- apply bool_decide_eq_false in Hin. split; [done|].
           intros (lic' & [= <-] & _ & l' & Hl' & Hin').
           rewrite Hal in Hl'. by injection Hl' as <-.
      * split; [done|]. intros (lic' & [= <-] & _ & l' & Hl' & _).
        rewrite Hal in Hl'. done.
  - split; [done|]. by intros (lic' & [=] & _).
  - split; [done|]. by intros (lic' & [=] & _).
Qed.

Lemma verifyLicense_with_total (rt : Runtime) (decode : string -> M (option License))
    (now : Z) (licenseKey instanceId : string) :
  outcome (verifyLicense_with rt decode now licenseKey instanceId) =
  match outcome (verifyLicense_try rt decode now licenseKey instanceId) with
  | Normal b => Normal b
  | Throw _ => Normal false
  end.
Proof.
  unfold verifyLicense_with, try_catch, outcome.
  by destruct (verifyLicense_try _ _ _ _ _) as [out [b|e]].
Qed.

Lemma new_Date_placeholder (rt : Runtime) :
  new_Date rt (Some "2026-12-31") = Some placeholder_expiry.
Proof. reflexivity. Qed.

Lemma verifyLicense_placeholder (rt : Runtime) (now : Z) (licenseKey instanceId : string) :
  outcome (verifyLicense rt now licenseKey instanceId) =
  Normal ((now <=? placeholder_expiry) && bool_decide (instanceId ∈ placeholder_instances)).
Proof.
  unfold verifyLicense, decodeLicenseKey. unfold_verify.
  cbn -[new_Date date_lt bool_decide].
  rewrite new_Date_placeholder. fold placeholder_instances.
  unfold date_lt. rewrite Z.ltb_antisym.
  destruct (now <=? placeholder_expiry); cbn -[bool_decide]; [|done].
  by destruct (bool_decide (instanceId ∈ placeholder_instances)).
Qed.

(** C1, as amended. [verifyLicense] returns [true] exactly when decoding
    succeeds, the decoded [expiresAt] is not strictly earlier than the
    current instant and [instanceId] is in the decoded [allowedInstances];
    with the placeholder decoder that is: the current instant is not later
    than 2026-12-31T00:00:00.000Z and [instanceId] is one of
    default-instance, production-1, staging-1. *)
Theorem verifyLicense_true_iff (rt : Runtime) :
  (forall (decode : string -> M (option License)) (now : Z) (licenseKey instanceId : string),
      outcome (verifyLicense_with rt decode now licenseKey instanceId) = Normal true
      <-> exists lic,
            outcome (decode licenseKey) = Normal (Some lic)
            /\ date_lt (new_Date rt (expiresAt lic)) (Some now) = false
            /\ exists l, allowedInstances lic = Some l /\ instanceId ∈ l)
  /\
  (forall (now : Z) (licenseKey instanceId : string),
      outcome (verifyLicense rt now licenseKey instanceId) = Normal true
      <-> now <= placeholder_expiry /\ instanceId ∈ placeholder_instances).
Proof.
  split.
  - intros. apply verifyLicense_with_true.
  - intros. rewrite verifyLicense_placeholder.
    split.
    + intros [= H]. apply andb_true_iff in H as [H1 H2].
      split; [by apply Z.leb_le | by apply bool_decide_eq_true in H2].
    + intros [H1 H2]. f_equal. apply andb_true_iff.
      split; [by apply Z.leb_le | by apply bool_decide_eq_true].
Qed.

Lemma verifyLicense_at_noon_of_last_day :
  outcome (verifyLicense Samples.runtime Samples.noon_2026_12_31 "key" "production-1")
  = Normal false.
Proof. rewrite verifyLicense_placeholder. reflexivity. Qed.

(** At noon UTC on 2026-12-31 the date is 2026-12-31 and production-1 is an
    allowed instance, yet the license is reported expired: the check is not
    "true iff the current date is on or before 2026-12-31". *)
Lemma verifyLicense_not_whole_last_day :
  ~ (forall (now : Z) (licenseKey instanceId : string),
        outcome (verifyLicense Samples.runtime now licenseKey instanceId) = Normal true
        <-> on_or_before_2026_12_31 0 now /\ instanceId ∈ placeholder_instances).
Proof.
  intros H.
  specialize (H Samples.noon_2026_12_31 "key" "production-1").
  rewrite verifyLicense_at_noon_of_last_day in H.
  destruct H as [_ H].
  assert (@Normal bool false = Normal true) as Habs; [|discriminate Habs].
  apply H. split.
  - unfold on_or_before_2026_12_31. vm_compute. discriminate.
  - unfold placeholder_instances. apply elem_of_cons. right. apply list_elem_of_here.
Qed.

(** The same one millisecond after the expiry instant, on the calendar of
    any zone from UTC-12 to UTC+14. *)
Lemma verifyLicense_expired_in_every_zone (offset : Z) :
  -720 <= offset <= 840 ->
  on_or_before_2026_12_31 offset (placeholder_expiry + 1)
  /\ outcome (verifyLicense Samples.runtime (placeholder_expiry + 1) "key" "production-1")
     = Normal false.
Proof.
  intros Hoff. split.
  - unfold on_or_before_2026_12_31, JsDate.utc_day, JsDate.local_day, JsDate.msPerDay.
    change ((JsDate.utc 2026 12 31 + 0 * 60000) / 86400000) with 20818.
    unfold placeholder_expiry.
    apply Z.lt_succ_r, Z.div_lt_upper_bound; lia.
  - rewrite verifyLicense_placeholder. reflexivity.
Qed.

(** C9. [verifyLicense] returns a boolean on every input: an error raised
    in the [try] block, by the decoder or by reading a missing object or
    list, ends in [false], never in an exception. *)
Theorem verifyLicense_never_throws (rt : Runtime) (decode : string -> M (option License))
    (now : Z) (licenseKey instanceId : string) :
  let result := outcome (verifyLicense_with rt decode now licenseKey instanceId) in
  (exists b, result = Normal b)
  /\ ((exists e, outcome (verifyLicense_try rt decode now licenseKey instanceId) = Throw e) ->
      result = Normal false)
  /\ ((exists e, outcome (decode licenseKey) = Throw e) -> result = Normal false)
  /\ (outcome (decode licenseKey) = Normal None -> result = Normal false)
  /\ (forall lic, outcome (decode licenseKey) = Normal (Some lic) ->
                  allowedInstances lic = None -> result = Normal false).
Proof.
  cbn zeta. rewrite verifyLicense_with_total. repeat split.
  - destruct (outcome (verifyLicense_try _ _ _ _ _)); eauto.
  - intros [e He]. by rewrite He.
  - intros [e He]. revert He. unfold_verify.
    destruct (decode licenseKey) as [out c]. simpl. by intros ->.
  - unfold_verify.
    destruct (decode licenseKey) as [out c]. simpl. by intros ->.
  - intros lic. unfold_verify.
    destruct (decode licenseKey) as [out c]. simpl. intros -> Hal. simpl.
    rewrite Hal. by destruct (date_lt _ _).
Qed.

Lemma verifyLicense_never_throws_witness :
  outcome (verifyLicense_with Samples.runtime Samples.failing_decoder 0 "bad" "production-1")
  = Normal false.
Proof.
  destruct (verifyLicense_never_throws Samples.runtime Samples.failing_decoder 0
              "bad" "production-1") as (_ & _ & Hdecode & _).
  apply Hdecode. exists (Thrown "jwt malformed"). reflexivity.
Defined.

(** ** The start-up routine *)

Ltac not_in_log :=
  rewrite ?app_nil_r;
  rewrite ?elem_of_app, ?elem_of_cons, ?elem_of_nil;
  intuition discriminate.

Lemma verifyLicense_output (rt : Runtime) (now : Z) (licenseKey instanceId : string) :
  integrity_violation ∉ output (verifyLicense rt now licenseKey instanceId).
Proof.
  unfold verifyLicense, decodeLicenseKey, integrity_violation. unfold_verify.
  cbn -[new_Date date_lt bool_decide].
  destruct (date_lt _ _); cbn -[bool_decide].
  - not_in_log.
  - destruct (bool_decide _); cbn; not_in_log.
Qed.

(** C10. [checkCodeIntegrity] is the constant [true], and whatever the
    environment and the clock, [initializeWatermarking] never writes the
    integrity-violation error. *)
Theorem integrity_violation_unreachable :
  checkCodeIntegrity = true
  /\ forall (rt : Runtime) (env : gmap string string) (now now1 now2 : Z),
       integrity_violation ∉ output (initializeWatermarking rt env now now1 now2).
Proof.
  split; [reflexivity|]. intros rt env now now1 now2.
  unfold initializeWatermarking, checkCodeIntegrity.
  pose proof (verifyLicense_output rt now (default "" (env !! "LICENSE_KEY"))
                (env_or env "INSTANCE_ID" "default-instance")) as Hv.
  destruct (verifyLicense rt now _ _) as [out [b|e]];
    unfold output, bind, console, ret in *; simpl in *.
  - destruct (env_truthy env "LICENSE_KEY"); simpl.
    + destruct b; simpl; unfold integrity_violation in *; not_in_log.
    + unfold integrity_violation. not_in_log.
  - destruct (env_truthy env "LICENSE_KEY"); simpl;
      unfold integrity_violation in *; not_in_log.
Qed.

Example transform_default_output :
  VitePlugin.transform (VitePlugin.watermarkPlugin VitePlugin.no_options ∅ 1700000000000)
    "export {};" "src/app.ts"
  = Some ("/* DevOps-guardians v1.0.0 - Licensed to: Unregistered - Build: 1700000000000 */"
          +:+ String "010" "export {};").
Proof. vm_compute. reflexivity. Qed.

(** ** Configuration *)

Import Config.

(** C6. The monitoring configuration carries the defaults the
    specification gives a transaction: timeout 30 s, 3 retries, 5 s between
    retries, and 365 days of retention. *)
Theorem monitoringConfig_matches_spec_defaults :
  defaultTimeout monitoringConfig = SpecDefaults.timeout
  /\ maxRetries monitoringConfig = SpecDefaults.maxRetries
  /\ retryDelay monitoringConfig = SpecDefaults.retryDelay
  /\ metricRetention monitoringConfig = SpecDefaults.metricRetention
  /\ defaultTimeout monitoringConfig = 30
  /\ maxRetries monitoringConfig = 3
  /\ retryDelay monitoringConfig = 5
  /\ metricRetention monitoringConfig = 365.
Proof. repeat split. Qed.

Lemma env_truthy_iff (env : gmap string string) (name : string) :
  env_truthy env name = true <-> exists v, env !! name = Some v /\ v <> "".
Proof.
  unfold env_truthy, JsString.truthy.
  destruct (env !! name) as [v|].
  - rewrite negb_true_iff. split.
    + intros H. exists v. split; [done|]. by apply String.eqb_neq.
    + intros (v' & [= <-] & Hne). by apply String.eqb_neq.
  - split; [done|]. by intros (v & [=] & _).
Qed.

(** C7, as amended. A channel is enabled exactly when its credential
    variable is set to a non-empty string: SMTP_HOST for email,
    TWILIO_ACCOUNT_SID for sms and for call. *)
Theorem notification_enabled_iff (env : gmap string string) :
  (email_enabled (email (notificationConfig env)) = true
   <-> exists v, env !! "SMTP_HOST" = Some v /\ v <> "")
  /\ (enabled (sms (notificationConfig env)) = true
      <-> exists v, env !! "TWILIO_ACCOUNT_SID" = Some v /\ v <> "")
  /\ (enabled (call (notificationConfig env)) = true
      <-> exists v, env !! "TWILIO_ACCOUNT_SID" = Some v /\ v <> "").
Proof.
  unfold notificationConfig; cbn [email sms call email_enabled enabled].
  rewrite <- !env_truthy_iff.
  repeat split; by destruct (env_truthy env _).
Qed.

Lemma notification_config_set_empty :
  let env : gmap string string := {[ "SMTP_HOST" := ""; "TWILIO_ACCOUNT_SID" := "" ]} in
  is_Some (env !! "SMTP_HOST")
  /\ is_Some (env !! "TWILIO_ACCOUNT_SID")
  /\ email_enabled (email (notificationConfig env)) = false
  /\ enabled (sms (notificationConfig env)) = false
  /\ enabled (call (notificationConfig env)) = false.
Proof.
  cbn zeta. repeat split; try (by eexists); vm_compute; reflexivity.
Qed.

(** With SMTP_HOST and TWILIO_ACCOUNT_SID set to the empty string the
    variables are present and yet all three channels are disabled. *)
Lemma notification_disabled_when_set_empty :
  let env : gmap string string := {[ "SMTP_HOST" := ""; "TWILIO_ACCOUNT_SID" := "" ]} in
  ~ (email_enabled (email (notificationConfig env)) = true <-> is_Some (env !! "SMTP_HOST"))
  /\ ~ (enabled (sms (notificationConfig env)) = true
        <-> is_Some (env !! "TWILIO_ACCOUNT_SID"))
  /\ ~ (enabled (call (notificationConfig env)) = true
        <-> is_Some (env !! "TWILIO_ACCOUNT_SID")).
Proof.
  destruct notification_config_set_empty as (Hs & Ht & He & Hsms & Hcall).
  cbn zeta in *. rewrite He, Hsms, Hcall.
  repeat split; intros [_ H]; [specialize (H Hs) | specialize (H Ht) ..];
    discriminate H.
Qed.

(** ** The migration *)

Import Migration.

Lemma block_enum_result (s : Schema) :
  exists s1,
    block_enum s = inl s1
    /\ pg_type_exists s1 "transaction_type" = true
    /\ tables s1 = tables s
    /\ (pg_type_exists s "transaction_type" = true -> s1 = s)
    /\ (pg_type_exists s "transaction_type" = false ->
        enum_types s1 = <["transaction_type" := ["api"; "content"; "form"; "navigation"]]>
                          (enum_types s)).
Proof.
  unfold block_enum, create_enum.
  destruct (pg_type_exists s "transaction_type") eqn:Hex; simpl.
  - exists s. by repeat split.
  - eexists. split; [reflexivity|]. repeat split; try done.
    unfold pg_type_exists. cbn [enum_types tables].
    rewrite lookup_insert_eq. apply orb_true_iff. left.
    apply bool_decide_eq_true. by eexists.
Qed.

Lemma column_exists_app (s : Schema) (t c : string) (cols : list Column) (col : Column) :
  tables s !! t = Some (cols ++ [col]) -> column_name col = c ->
  column_exists s t c = true.
Proof.
  intros Ht Hc. unfold column_exists. rewrite Ht.
  rewrite existsb_app. apply orb_true_iff. right. simpl.
  rewrite Hc, String.eqb_refl. reflexivity.
Qed.

Lemma block_column_result (s : Schema) :
  match block_column s with
  | inr e => tables s !! "synthetic_transactions" = None
  | inl s2 =>
      column_exists s2 "synthetic_transactions" "check_interval" = true
      /\ enum_types s2 = enum_types s
      /\ (forall t, t <> "synthetic_transactions" -> tables s2 !! t = tables s !! t)
      /\ (column_exists s "synthetic_transactions" "check_interval" = true -> s2 = s)
      /\ (column_exists s "synthetic_transactions" "check_interval" = false ->
          exists cols, tables s !! "synthetic_transactions" = Some cols
                       /\ tables s2 !! "synthetic_transactions"
                          = Some (cols ++ [check_interval_column]))
  end.
Proof.
  unfold block_column, add_column.
  destruct (column_exists s _ _) eqn:Hex; simpl.
  - by repeat split.
  - unfold column_exists in Hex.
    destruct (tables s !! "synthetic_transactions") as [cols|] eqn:Ht; [|done].
    cbn [column_name check_interval_column]. rewrite Hex.
    repeat split; try done.
    + eapply column_exists_app;
        [cbn [tables]; apply lookup_insert_eq | reflexivity].
    + intros t Hne. cbn [tables]. by rewrite lookup_insert_ne.
    + intros _. exists cols. split; [done|]. cbn [tables]. apply lookup_insert_eq.
Qed.

Lemma pg_type_exists_ext (s s' : Schema) (n : string) :
  enum_types s' = enum_types s -> tables s' !! n = tables s !! n ->
  pg_type_exists s' n = pg_type_exists s n.
Proof. unfold pg_type_exists. by intros -> ->. Qed.

Lemma migration_twice (s : Schema) : migration (fst (migration s)) = migration s.
Proof.
  unfold migration, run_script.
  destruct (block_enum_result s) as (s1 & -> & Hty1 & _ & _ & _).
  pose proof (block_column_result s1) as Hc.
  destruct (block_column s1) as [s2|e] eqn:Hb; simpl.
  - destruct Hc as (Hcol & Hen & Htb & _ & _).
    destruct (block_enum_result s2) as (s3 & -> & _ & _ & Hsame & _).
    rewrite Hsame.
    + pose proof (block_column_result s2) as Hc2.
      destruct (block_column s2) as [s4|e2].
      * destruct Hc2 as (_ & _ & _ & Hsame2 & _). by rewrite Hsame2.
      * unfold column_exists in Hcol. by rewrite Hc2 in Hcol.
    + rewrite (pg_type_exists_ext s1 s2 "transaction_type" Hen); [done|].
      by apply Htb.
  - destruct (block_enum_result s1) as (s3 & -> & _ & _ & Hsame & _).
    rewrite (Hsame Hty1), Hb. reflexivity.
Qed.

Lemma migration_schema (s : Schema) :
  (pg_type_exists s "transaction_type" = true ->
   enum_types (fst (migration s)) = enum_types s)
  /\ (pg_type_exists s "transaction_type" = false ->
      enum_types (fst (migration s)) !! "transaction_type"
      = Some ["api"; "content"; "form"; "navigation"])
  /\ (column_exists s "synthetic_transactions" "check_interval" = true ->
      tables (fst (migration s)) = tables s /\ snd (migration s) = None)
  /\ (forall cols,
        tables s !! "synthetic_transactions" = Some cols ->
        column_exists s "synthetic_transactions" "check_interval" = false ->
        tables (fst (migration s)) !! "synthetic_transactions"
        = Some (cols ++ [check_interval_column])
        /\ snd (migration s) = None).
Proof.
  unfold migration, run_script.
  destruct (block_enum_result s) as (s1 & -> & Hty1 & Htb1 & Hsame1 & Hnew1).
  assert (column_exists s1 "synthetic_transactions" "check_interval"
          = column_exists s "synthetic_transactions" "check_interval") as Hce
    by (unfold column_exists; by rewrite Htb1).
  pose proof (block_column_result s1) as Hc.
  destruct (block_column s1) as [s2|e]; simpl.
  - destruct Hc as (Hcol & Hen & Htb & Hsame & Hadd).
    rewrite Hce in Hsame, Hadd.
    split; [|split; [|split]].
    + intros Hex. rewrite Hen. by rewrite (Hsame1 Hex).
    + intros Hex. rewrite Hen, (Hnew1 Hex). apply lookup_insert_eq.
    + intros Hex. rewrite (Hsame Hex). done.
    + intros cols Hcols Hex. split; [|done].
      destruct (Hadd Hex) as (cols' & Hc' & Hc2).
      rewrite Htb1, Hcols in Hc'. by injection Hc' as <-.
  - rewrite Htb1 in Hc.
    split; [|split; [|split]].
    + intros Hex. by rewrite (Hsame1 Hex).
    + intros Hex. rewrite (Hnew1 Hex). apply lookup_insert_eq.
    + unfold column_exists. by rewrite Hc.
    + intros cols Hcols. congruence.
Qed.

(** C3. On a catalog with no type named transaction_type and a table
    synthetic_transactions without the column, the script succeeds, creates
    the enum with the labels api, content, form, navigation in that order,
    and appends the column check_interval: integer, NOT NULL, default 300. *)
Theorem migration_creates (s : Schema) (cols : list Column) :
  pg_type_exists s "transaction_type" = false ->
  tables s !! "synthetic_transactions" = Some cols ->
  column_exists s "synthetic_transactions" "check_interval" = false ->
  snd (migration s) = None
  /\ enum_types (fst (migration s)) !! "transaction_type"
     = Some ["api"; "content"; "form"; "navigation"]
  /\ tables (fst (migration s)) !! "synthetic_transactions"
     = Some (cols ++ [ {| column_name := "check_interval"; data_type := TInteger;
                          not_null := true; column_default := Some 300 |} ]).
Proof.
  intros Hty Htb Hcol.
  destruct (migration_schema s) as (_ & Henum & _ & Hadd).
  destruct (Hadd cols Htb Hcol) as [Hcols Hok].
  split; [done|]. split; [by apply Henum | done].
Qed.

Lemma migration_creates_witness :
  snd (migration Samples.bare_table) = None
  /\ enum_types (fst (migration Samples.bare_table)) !! "transaction_type"
     = Some ["api"; "content"; "form"; "navigation"]
  /\ tables (fst (migration Samples.bare_table)) !! "synthetic_transactions"
     = Some ([ {| column_name := "id"; data_type := TInteger;
                  not_null := true; column_default := None |} ]
             ++ [ {| column_name := "check_interval"; data_type := TInteger;
                     not_null := true; column_default := Some 300 |} ]).
Proof.
  apply (migration_creates Samples.bare_table); vm_compute; reflexivity.
Defined.

(** C4. The script is idempotent: a second run leaves the catalog as the
    first run left it.  The enum is created only when no type of that name
    exists, the column is added only when the table has no such column, and
    where both exist the script changes nothing. *)
Theorem migration_idempotent (s : Schema) :
  migration (fst (migration s)) = migration s
  /\ (pg_type_exists s "transaction_type" = true ->
      enum_types (fst (migration s)) = enum_types s)
  /\ (column_exists s "synthetic_transactions" "check_interval" = true ->
      tables (fst (migration s)) = tables s)
  /\ (pg_type_exists s "transaction_type" = true ->
      column_exists s "synthetic_transactions" "check_interval" = true ->
      migration s = (s, None)).
Proof.
  destruct (migration_schema s) as (Henum & _ & Hcol & _).
  split; [apply migration_twice|].
  split; [done|]. split; [intros H; by apply Hcol|].
  intros Hty Hc. unfold migration. cbn [run_script].
  unfold block_enum. rewrite Hty. cbn [negb].
  unfold block_column. by rewrite Hc.
Qed.

Lemma migration_idempotent_witness :
  migration (fst (migration Samples.bare_table))
  = (fst (migration Samples.bare_table), None).
Proof.
  apply (migration_idempotent (fst (migration Samples.bare_table)));
    vm_compute; reflexivity.
Defined.

Lemma find_app_absent {A} (f : A -> bool) (l : list A) (x : A) :
  existsb f l = false -> List.find f (l ++ [x]) = List.find f [x].
Proof.
  induction l as [|a l IH]; [done|]. simpl.
  destruct (f a); [done|]. exact IH.
Qed.

(** X21. The two defaults of the check interval differ: where the script
    adds the column its default is 300, and [monitoringConfig] sets
    [defaultCheckInterval] to 60. *)
Theorem check_interval_defaults_disagree :
  defaultCheckInterval monitoringConfig = 60
  /\ column_default check_interval_column = Some 300
  /\ forall (s : Schema) (cols : list Column),
       tables s !! "synthetic_transactions" = Some cols ->
       column_exists s "synthetic_transactions" "check_interval" = false ->
       default_of (fst (migration s)) "synthetic_transactions" "check_interval" = Some 300
       /\ default_of (fst (migration s)) "synthetic_transactions" "check_interval"
          <> Some (defaultCheckInterval monitoringConfig).
Proof.
  split; [reflexivity|]. split; [reflexivity|].
  intros s cols Htb Hcol.
  destruct (migration_schema s) as (_ & _ & _ & Hadd).
  destruct (Hadd cols Htb Hcol) as [Hcols _].
  assert (default_of (fst (migration s)) "synthetic_transactions" "check_interval"
          = Some 300) as Hd.
  { unfold default_of. rewrite Hcols. cbn [mbind option_bind].
    unfold column_exists in Hcol. rewrite Htb in Hcol.
    rewrite (find_app_absent _ _ _ Hcol). reflexivity. }
  split; [done|]. rewrite Hd. discriminate.
Qed.

Lemma check_interval_defaults_disagree_witness :
  default_of (fst (migration Samples.bare_table)) "synthetic_transactions" "check_interval"
  = Some 300.
Proof.
  destruct check_interval_defaults_disagree as (_ & _ & H).
  apply (H Samples.bare_table
           [ {| column_name := "id"; data_type := TInteger;
                not_null := true; column_default := None |} ]);
    vm_compute; reflexivity.
Defined.

(** ** The retry coordinator *)

Lemma retry_loop_all_fail (probe : nat -> RetryCoordinator.Attempt)
    (tx : RetryCoordinator.SyntheticTransaction) (left n : nat) (clock : Z) :
  (forall k, RetryCoordinator.attempt_outcome (probe k) = RetryCoordinator.failure) ->
  RetryCoordinator.within_timeout probe tx ->
  let r := RetryCoordinator.retry_loop probe tx n left clock in
  let delay := RetryCoordinator.tx_retryDelay tx in
  RetryCoordinator.outcome r = RetryCoordinator.failure
  /\ RetryCoordinator.attempt r = (n + left)%nat
  /\ clock + Z.of_nat left * delay <= RetryCoordinator.elapsed r
  /\ RetryCoordinator.elapsed r
     <= clock + (Z.of_nat left + 1) * RetryCoordinator.tx_timeout tx + Z.of_nat left * delay.
Proof.
  intros Hfail Htime. revert n clock.
  induction left as [|left IH]; intros n clock; cbn zeta.
  - simpl. rewrite Hfail. simpl. specialize (Htime n).
    repeat split; [lia | lia | lia].
  - cbn [RetryCoordinator.retry_loop]. rewrite Hfail.
    specialize (IH (S n) (clock + RetryCoordinator.attempt_duration (probe n)
                          + RetryCoordinator.tx_retryDelay tx)).
    cbn zeta in IH. destruct IH as (Ho & Ha & Hlo & Hhi).
    specialize (Htime n).
    repeat split; [done | lia | lia | lia].
Qed.

(** C8. With maxRetries = 3, retryDelay = 5 and timeout = 30, a check whose
    probe fails on every attempt uses exactly 4 attempts and ends in
    failure, after at least 15 and at most 135 seconds. *)
Theorem always_failing_check (probe : nat -> RetryCoordinator.Attempt)
    (tx : RetryCoordinator.SyntheticTransaction) :
  RetryCoordinator.tx_maxRetries tx = 3%nat ->
  RetryCoordinator.tx_retryDelay tx = 5 ->
  RetryCoordinator.tx_timeout tx = 30 ->
  (forall k, RetryCoordinator.attempt_outcome (probe k) = RetryCoordinator.failure) ->
  RetryCoordinator.within_timeout probe tx ->
  let r := RetryCoordinator.run_check probe tx in
  RetryCoordinator.attempt r = 4%nat
  /\ RetryCoordinator.outcome r = RetryCoordinator.failure
  /\ 15 <= RetryCoordinator.elapsed r <= 135.
Proof.
  intros Hmax Hdelay Htimeout Hfail Htime. cbn zeta.
  unfold RetryCoordinator.run_check. rewrite Hmax.
  destruct (retry_loop_all_fail probe tx 3 1 0 Hfail Htime) as (Ho & Ha & Hlo & Hhi).
  rewrite Hdelay in Hlo, Hhi. rewrite Htimeout in Hhi.
  repeat split; [done | done | lia | lia].
Qed.

Lemma always_failing_check_witness :
  let r := RetryCoordinator.run_check Samples.always_failing Samples.default_transaction in
  RetryCoordinator.attempt r = 4%nat
  /\ RetryCoordinator.outcome r = RetryCoordinator.failure
  /\ 15 <= RetryCoordinator.elapsed r <= 135.
Proof.
  apply (always_failing_check Samples.always_failing Samples.default_transaction);
    try reflexivity.
  intros n. simpl. lia.
Defined.

(** * Further properties of the code *)

(** ** verifyLicense *)

(** X1. Only an upper bound on time is checked: a license that verifies at
    some instant verifies at every earlier instant, whatever the decoder. *)
Theorem verifyLicense_valid_earlier (rt : Runtime) (decode : string -> M (option License))
    (now earlier : Z) (licenseKey instanceId : string) :
  earlier <= now ->
  outcome (verifyLicense_with rt decode now licenseKey instanceId) = Normal true ->
  outcome (verifyLicense_with rt decode earlier licenseKey instanceId) = Normal true.
Proof.
  intros Hle. rewrite !verifyLicense_with_true.
  intros (lic & Hdec & Hlt & Hin). exists lic. split; [done|]. split; [|done].
  rewrite date_lt_false in *. intros t Ht. specialize (Hlt t Ht). lia.
Qed.

Lemma verifyLicense_valid_earlier_witness :
  outcome (verifyLicense_with Samples.runtime decodeLicenseKey 0 "key" "staging-1")
  = Normal true.
Proof.
  apply (verifyLicense_valid_earlier Samples.runtime decodeLicenseKey
           placeholder_expiry 0 "key" "staging-1").
  - unfold placeholder_expiry. lia.
  - vm_compute. reflexivity.
Defined.

(** X2. A decoded license whose [expiresAt] is missing or is not a date the
    engine can read never expires: at every instant the check returns
    [true] exactly for the instances of its list. *)
Theorem verifyLicense_without_expiry (rt : Runtime) (decode : string -> M (option License))
    (lic : License) (now : Z) (licenseKey instanceId : string) :
  outcome (decode licenseKey) = Normal (Some lic) ->
  new_Date rt (expiresAt lic) = None ->
  (outcome (verifyLicense_with rt decode now licenseKey instanceId) = Normal true
   <-> exists l, allowedInstances lic = Some l /\ instanceId ∈ l).
Proof.
  intros Hdec Hnan. rewrite verifyLicense_with_true. split.
  - intros (lic' & Hdec' & _ & Hin). rewrite Hdec in Hdec'. by injection Hdec' as <-.
  - intros Hin. exists lic. split; [done|]. split; [|done]. by rewrite Hnan.
Qed.

Lemma verifyLicense_without_expiry_witness :
  outcome (verifyLicense_with Samples.runtime Samples.perpetual_decoder
             (1000 * placeholder_expiry) "key" "edge-7") = Normal true.
Proof.
  apply (verifyLicense_without_expiry Samples.runtime Samples.perpetual_decoder
           _ (1000 * placeholder_expiry) "key" "edge-7" eq_refl eq_refl).
  exists ["edge-7"]. split; [reflexivity | apply list_elem_of_here].
Defined.

(** X3. What the check writes when the decoder returns a license with a
    list of instances: after the decoder's own output, one warning and
    [false] if the license is expired (the instance is then not looked at),
    else one warning and [false] if the instance is not in the list, else
    nothing and [true]. *)
Theorem verifyLicense_console (rt : Runtime) (decode : string -> M (option License))
    (out : list LogEntry) (lic : License) (l : list string)
    (now : Z) (licenseKey instanceId : string) :
  decode licenseKey = (out, Normal (Some lic)) ->
  allowedInstances lic = Some l ->
  verifyLicense_with rt decode now licenseKey instanceId =
  if date_lt (new_Date rt (expiresAt lic)) (Some now) then
    (out ++ [ {| level := LWarn; args := ["License has expired"] |} ], Normal false)
  else if bool_decide (instanceId ∈ l) then (out, Normal true)
  else (out ++ [ {| level := LWarn;
                    args := ["Instance ID not authorized for this license"] |} ],
        Normal false).
Proof.
  intros Hdec Hal. unfold_verify. rewrite Hdec. cbn -[new_Date date_lt bool_decide].
  destruct (date_lt _ _); [reflexivity|].
  rewrite Hal. cbn -[bool_decide].
  destruct (bool_decide (instanceId ∈ l)); cbn; by rewrite ?app_nil_r.
Qed.

Lemma verifyLicense_console_witness :
  verifyLicense_with Samples.runtime decodeLicenseKey (placeholder_expiry + 1)
    "key" "not-listed"
  = ([ {| level := LWarn; args := ["License has expired"] |} ], Normal false).
Proof.
  apply (verifyLicense_console Samples.runtime decodeLicenseKey [] _
           placeholder_instances (placeholder_expiry + 1) "key" "not-listed"
           eq_refl eq_refl).
Defined.

(** X4. An error is reported, not swallowed: when the decoder throws, or
    returns no object, the check writes the decoder's output followed by
    one [console.error] entry carrying the error, and returns [false]. *)
Theorem verifyLicense_error_logged (rt : Runtime) (decode : string -> M (option License))
    (out : list LogEntry) (now : Z) (licenseKey instanceId : string) :
  (forall e, decode licenseKey = (out, Throw e) ->
     verifyLicense_with rt decode now licenseKey instanceId =
     (out ++ [ {| level := LError; args := ["Error verifying license:"; error_text e] |} ],
      Normal false))
  /\ (decode licenseKey = (out, Normal None) ->
      exists msg,
        verifyLicense_with rt decode now licenseKey instanceId =
        (out ++ [ {| level := LError;
                     args := ["Error verifying license:"; error_text (TypeError msg)] |} ],
         Normal false)).
Proof.
  split.
  - intros e Hdec. unfold_verify. by rewrite Hdec.
  - intros Hdec. exists "Cannot read properties of undefined".
    unfold_verify. rewrite Hdec. simpl. by rewrite app_nil_r.
Qed.

Lemma verifyLicense_error_logged_witness :
  verifyLicense_with Samples.runtime Samples.failing_decoder 0 "bad" "production-1" =
  ([ {| level := LError; args := ["Error verifying license:"; "jwt malformed"] |} ],
   Normal false).
Proof.
  destruct (verifyLicense_error_logged Samples.runtime Samples.failing_decoder []
              0 "bad" "production-1") as [Hthrow _].
  apply (Hthrow (Thrown "jwt malformed")). reflexivity.
Defined.

(** ** initializeWatermarking *)

Lemma verifyLicense_placeholder_run (rt : Runtime) (now : Z) (licenseKey instanceId : string) :
  verifyLicense rt now licenseKey instanceId =
  if now <=? placeholder_expiry then
    if bool_decide (instanceId ∈ placeholder_instances) then ([], Normal true)
    else ([ {| level := LWarn;
               args := ["Instance ID not authorized for this license"] |} ], Normal false)
  else ([ {| level := LWarn; args := ["License has expired"] |} ], Normal false).
Proof.
  unfold verifyLicense, decodeLicenseKey. unfold_verify.
  cbn -[new_Date date_lt bool_decide].
  rewrite new_Date_placeholder. fold placeholder_instances.
  unfold date_lt. rewrite Z.ltb_antisym.
  destruct (now <=? placeholder_expiry); cbn -[bool_decide]; [|done].
  by destruct (bool_decide (instanceId ∈ placeholder_instances)).
Qed.

(** X5. Start-up always completes: whatever the environment, the license
    and the clock, [initializeWatermarking] returns normally and the last
    thing it writes is the debug line with the base64 of the source
    watermark of the instance. *)
Theorem initializeWatermarking_completes (rt : Runtime) (env : gmap string string)
    (now now1 now2 : Z) :
  let instanceId := env_or env "INSTANCE_ID" "default-instance" in
  let watermark :=
    generateSourceWatermark rt (env_or env "WATERMARK_KEY" "default-key") instanceId
      now1 now2 in
  outcome (initializeWatermarking rt env now now1 now2) = Normal tt
  /\ exists before,
       output (initializeWatermarking rt env now now1 now2) =
       before ++ [ {| level := LDebug;
                      args := ["Application initialized " +:+ Base64.encode watermark] |} ].
Proof.
  cbn zeta. unfold initializeWatermarking, checkCodeIntegrity.
  rewrite verifyLicense_placeholder_run.
  destruct (env_truthy env "LICENSE_KEY");
    [destruct (now <=? placeholder_expiry); [destruct (bool_decide _)|]|];
    (split; [reflexivity|]);
    first [ by exists [] | by eexists [_] | by eexists [_; _] ].
Qed.

(** X6. What start-up writes about the license.  With LICENSE_KEY unset or
    empty: the unregistered-mode warning and the debug line, and the
    license is not checked.  With a key, an allowed instance and an instant
    up to the expiry: the debug line alone.  With a key otherwise: one
    warning, the error "Invalid license detected" and the debug line. *)
Theorem initializeWatermarking_license_report (rt : Runtime) (env : gmap string string)
    (now now1 now2 : Z) :
  let instanceId := env_or env "INSTANCE_ID" "default-instance" in
  let debug_line :=
    {| level := LDebug;
       args := ["Application initialized " +:+
                Base64.encode (generateSourceWatermark rt
                  (env_or env "WATERMARK_KEY" "default-key") instanceId now1 now2)] |} in
  let written := output (initializeWatermarking rt env now now1 now2) in
  (env !! "LICENSE_KEY" = None \/ env !! "LICENSE_KEY" = Some "" ->
   written = [ {| level := LWarn; args := ["Application running in unregistered mode"] |};
               debug_line ])
  /\ ((exists k, env !! "LICENSE_KEY" = Some k /\ k <> "") ->
      (now <= placeholder_expiry /\ instanceId ∈ placeholder_instances ->
       written = [debug_line])
      /\ (~ (now <= placeholder_expiry /\ instanceId ∈ placeholder_instances) ->
          exists warning,
            level warning = LWarn /\
            written = [ warning;
                        {| level := LError; args := ["Invalid license detected"] |};
                        debug_line ])).
Proof.
  cbn zeta. unfold initializeWatermarking, checkCodeIntegrity.
  rewrite verifyLicense_placeholder_run. split.
  - intros Hkey.
    assert (env_truthy env "LICENSE_KEY" = false) as ->
      by (unfold env_truthy; by destruct Hkey as [-> | ->]).
    reflexivity.
  - intros Hkey. apply env_truthy_iff in Hkey. rewrite Hkey. cbn [negb].
    destruct (now <=? placeholder_expiry) eqn:Hnow.
    + apply Z.leb_le in Hnow.
      destruct (bool_decide _) eqn:Hin.
      * split; [reflexivity|]. apply bool_decide_eq_true in Hin.
        intros H. destruct H. done.
      * apply bool_decide_eq_false in Hin. split; [intros [_ H]; done|].
        intros _. eexists. split; [|reflexivity]. reflexivity.
    + apply Z.leb_gt in Hnow. split; [intros [H _]; lia|].
      intros _. eexists. split; [|reflexivity]. reflexivity.
Qed.

Lemma initializeWatermarking_license_report_witness :
  output (initializeWatermarking Samples.runtime ∅ 0 0 0) =
  [ {| level := LWarn; args := ["Application running in unregistered mode"] |};
    {| level := LDebug;
       args := ["Application initialized " +:+
                Base64.encode (generateSourceWatermark Samples.runtime
                  "default-key" "default-instance" 0 0)] |} ]
  /\ output (initializeWatermarking Samples.runtime {[ "LICENSE_KEY" := "k" ]} 0 0 0) =
     [ {| level := LDebug;
          args := ["Application initialized " +:+
                   Base64.encode (generateSourceWatermark Samples.runtime
                     "default-key" "default-instance" 0 0)] |} ].
Proof.
  split.
  - destruct (initializeWatermarking_license_report Samples.runtime ∅ 0 0 0) as [H _].
    apply H. left. reflexivity.
  - destruct (initializeWatermarking_license_report Samples.runtime
                {[ "LICENSE_KEY" := "k" ]} 0 0 0) as [_ H].
    destruct H as [H _]; [by exists "k"|].
    apply H. split; [unfold placeholder_expiry; lia | apply list_elem_of_here].
Defined.

(** ** generateSourceWatermark *)

Lemma substring_length (n : nat) (s : string) :
  String.length (String.substring 0 n s) = Nat.min n (String.length s).
Proof.
  revert s. induction n as [|n IH]; intros [|c s]; simpl; try reflexivity.
  by rewrite IH.
Qed.

Lemma substring_prefix (n : nat) (s : string) :
  exists rest, s = String.substring 0 n s +:+ rest.
Proof.
  revert s. induction n as [|n IH]; intros [|c s]; simpl.
  - by exists "".
  - by exists (String c s).
  - by exists "".
  - destruct (IH s) as [rest Hrest]. exists rest.
    rewrite append_cons. by rewrite <- Hrest.
Qed.

(** X7. The source watermark is [DGWM-], then the first 16 characters of
    the HMAC digest of [instanceId-timestamp], then [-] and the year; a
    digest of at least 16 characters contributes exactly 16. *)
Theorem generateSourceWatermark_shape (rt : Runtime) (key instanceId : string)
    (now1 now2 : Z) :
  let digest := hmac_sha256_hex rt key (instanceId +:+ "-" +:+ toISOString rt now1) in
  (16 <= String.length digest)%nat ->
  exists hash rest,
    digest = hash +:+ rest
    /\ String.length hash = 16%nat
    /\ generateSourceWatermark rt key instanceId now1 now2
       = "DGWM-" +:+ hash +:+ "-" +:+ pretty (getFullYear rt now2).
Proof.
  cbn zeta. intros Hlen. unfold generateSourceWatermark.
  set (digest := hmac_sha256_hex rt key _) in *.
  destruct (substring_prefix 16 digest) as [rest Hrest].
  exists (String.substring 0 16 digest), rest.
  split; [done|]. split; [|reflexivity].
  rewrite substring_length. lia.
Qed.

Lemma generateSourceWatermark_shape_witness :
  exists hash rest,
    "00112233445566778899aabbccddeeff" = hash +:+ rest
    /\ String.length hash = 16%nat
    /\ generateSourceWatermark Samples.runtime "default-key" "default-instance" 0 0
       = "DGWM-" +:+ hash +:+ "-" +:+ pretty (getFullYear Samples.runtime 0).
Proof.
  apply (generateSourceWatermark_shape Samples.runtime "default-key" "default-instance" 0 0).
  simpl. lia.
Defined.

(** ** The Vite plugin: transform *)

Lemma transform_shape (options : VitePlugin.Options) (env : gmap string string)
    (buildId : Z) :
  exists watermark,
    VitePlugin.BlockComment watermark /\
    forall code id,
      VitePlugin.transform (VitePlugin.watermarkPlugin options env buildId) code id =
      if existsb (fun pattern => JsString.includes id pattern) (VitePlugin.exclude_of options)
      then None
      else if existsb (fun ext => JsString.endsWith id ext) (VitePlugin.include_of options)
      then Some (watermark +:+ String "010" code)
      else None.
Proof.
  unfold VitePlugin.exclude_of, VitePlugin.include_of.
  cbn -[existsb String.append pretty Base64.encode].
  destruct (default false (VitePlugin.encodeWatermark options)).
  - eexists. split; [apply block_comment_encoded|].
    intros code id. by repeat destruct (existsb _ _).
  - destruct (JsString.truthy _).
    + eexists. split; [|intros code id; by repeat destruct (existsb _ _)].
      change ("/* DevOps-guardians v" +:+ ?x) with ("/*" +:+ " DevOps-guardians v" +:+ x).
      rewrite <- (append_assoc "/*"). rewrite (append_assoc "/*").
      apply block_comment_close.
    + eexists. split; [|intros code id; by repeat destruct (existsb _ _)].
      change ("/* DevOps-guardians v" +:+ ?x) with ("/*" +:+ " DevOps-guardians v" +:+ x).
      apply block_comment_close.
Qed.

(** X8. One plugin stamps one watermark: there is a single block comment
    that every stamped file of the build starts with, and whether a file
    is stamped depends on its id alone, not on its code. *)
Theorem transform_one_watermark (options : VitePlugin.Options) (env : gmap string string)
    (buildId : Z) :
  let plugin := VitePlugin.watermarkPlugin options env buildId in
  exists watermark,
    VitePlugin.BlockComment watermark
    /\ (forall code id,
          VitePlugin.transform plugin code id = None
          \/ VitePlugin.transform plugin code id = Some (watermark +:+ String "010" code))
    /\ (forall code code' id,
          VitePlugin.transform plugin code id = None
          <-> VitePlugin.transform plugin code' id = None).
Proof.
  cbn zeta. destruct (transform_shape options env buildId) as (w & Hw & Hshape).
  exists w. split; [done|]. split.
  - intros code id. rewrite Hshape. repeat destruct (existsb _ _); auto.
  - intros code code' id. rewrite !Hshape.
    repeat destruct (existsb _ _); done.
Qed.

(** X9. The plugin does not recognise its own stamp: given a stamped file
    again under the same id, it puts the same watermark in front once
    more. *)
Theorem transform_restamps (options : VitePlugin.Options) (env : gmap string string)
    (buildId : Z) (code id stamped : string) :
  let plugin := VitePlugin.watermarkPlugin options env buildId in
  VitePlugin.transform plugin code id = Some stamped ->
  exists watermark,
    stamped = watermark +:+ String "010" code
    /\ VitePlugin.transform plugin stamped id
       = Some (watermark +:+ String "010" (watermark +:+ String "010" code)).
Proof.
  cbn zeta. destruct (transform_shape options env buildId) as (w & Hw & Hshape).
  rewrite !Hshape. intros H. exists w.
  repeat destruct (existsb _ _); try discriminate H.
  injection H as <-. done.
Qed.

Lemma transform_restamps_witness :
  let plugin := VitePlugin.watermarkPlugin VitePlugin.no_options ∅ 5 in
  exists watermark,
    "/* DevOps-guardians v1.0.0 - Licensed to: Unregistered - Build: 5 */"
      +:+ String "010" "x" = watermark +:+ String "010" "x"
    /\ VitePlugin.transform plugin
         ("/* DevOps-guardians v1.0.0 - Licensed to: Unregistered - Build: 5 */"
            +:+ String "010" "x") "a.js"
       = Some (watermark +:+ String "010" (watermark +:+ String "010" "x")).
Proof.
  apply (transform_restamps VitePlugin.no_options ∅ 5 "x" "a.js").
  vm_compute. reflexivity.
Defined.

(** X10. Without custom text and without encoding, the plugin stamps
    exactly the comment [generateBuildWatermark] makes for the same
    license holder, version and build id. *)
Theorem transform_uses_build_watermark (options : VitePlugin.Options)
    (env : gmap string string) (buildId : Z) (holder ver code id : string) :
  VitePlugin.licenseHolder options = Some holder ->
  VitePlugin.version options = Some ver ->
  VitePlugin.customText options = None \/ VitePlugin.customText options = Some "" ->
  VitePlugin.encodeWatermark options = None
  \/ VitePlugin.encodeWatermark options = Some false ->
  VitePlugin.transform (VitePlugin.watermarkPlugin options env buildId) code id = None
  \/ VitePlugin.transform (VitePlugin.watermarkPlugin options env buildId) code id
     = Some (generateBuildWatermark holder ver buildId +:+ String "010" code).
Proof.
  intros Hh Hv Hc He.
  cbn -[existsb String.append pretty Base64.encode].
  rewrite Hh, Hv.
  assert (default "" (VitePlugin.customText options) = "") as ->
    by (by destruct Hc as [-> | ->]).
  assert (default false (VitePlugin.encodeWatermark options) = false) as ->
    by (by destruct He as [-> | ->]).
  cbn [default JsString.truthy String.eqb negb].
  repeat destruct (existsb _ _); cbn [negb]; auto.
  right. unfold generateBuildWatermark. by rewrite !append_assoc.
Qed.

Lemma transform_uses_build_watermark_witness :
  let options := {| VitePlugin.licenseHolder := Some "ABC Corporation";
                    VitePlugin.version := Some "2.1.0";
                    VitePlugin.exclude := None; VitePlugin.include := None;
                    VitePlugin.customText := None;
                    VitePlugin.encodeWatermark := None |} in
  VitePlugin.transform (VitePlugin.watermarkPlugin options ∅ 42) "x" "main.tsx" = None
  \/ VitePlugin.transform (VitePlugin.watermarkPlugin options ∅ 42) "x" "main.tsx"
     = Some (generateBuildWatermark "ABC Corporation" "2.1.0" 42 +:+ String "010" "x").
Proof.
  cbn zeta. apply transform_uses_build_watermark;
    first [reflexivity | left; reflexivity].
Defined.

Lemma append_empty_r (s : string) : s +:+ "" = s.
Proof.
  induction s as [|c s IH]; [reflexivity|]. rewrite append_cons. by rewrite IH.
Qed.

Lemma EndsWith_Contains (s p : string) : JsString.EndsWith s p -> JsString.Contains s p.
Proof.
  intros [a Ha]. exists a, "". by rewrite append_empty_r.
Qed.

(** X11. Exclusion wins and matches anywhere in the id: a file whose id
    ends with (or merely contains) an excluded pattern is never stamped,
    also when the same text is an included extension; an empty pattern in
    the exclude list switches the plugin off. *)
Theorem transform_exclude_wins (options : VitePlugin.Options) (env : gmap string string)
    (buildId : Z) (pattern code id : string) :
  pattern ∈ VitePlugin.exclude_of options ->
  JsString.EndsWith id pattern \/ JsString.Contains id pattern \/ pattern = "" ->
  VitePlugin.transform (VitePlugin.watermarkPlugin options env buildId) code id = None.
Proof.
  intros Hin Hmatch.
  assert (JsString.Contains id pattern) as Hc.
  { destruct Hmatch as [H | [H | ->]]; [by apply EndsWith_Contains | done |].
    exists "", id. reflexivity. }
  destruct (transform_shape options env buildId) as (w & _ & ->).
  assert (existsb (fun p => JsString.includes id p) (VitePlugin.exclude_of options) = true)
    as -> by (apply existsb_includes; eauto).
  reflexivity.
Qed.

Lemma transform_exclude_wins_witness :
  let options := {| VitePlugin.licenseHolder := None; VitePlugin.version := None;
                    VitePlugin.exclude := Some [".ts"];
                    VitePlugin.include := Some [".ts"];
                    VitePlugin.customText := None;
                    VitePlugin.encodeWatermark := None |} in
  VitePlugin.transform (VitePlugin.watermarkPlugin options ∅ 42) "x" "src/app.ts" = None.
Proof.
  apply (transform_exclude_wins _ ∅ 42 ".ts" "x" "src/app.ts").
  - apply list_elem_of_here.
  - left. exists "src/app". reflexivity.
Defined.

(** *** The encoded watermark *)

Lemma get_occurs (k : nat) (s : string) (c : ascii) :
  String.get k s = Some c -> ViteHooks.occurs c s = true.
Proof.
  revert k. induction s as [|d s IH]; intros [|k]; simpl; try discriminate.
  - intros [= ->]. by rewrite Ascii.eqb_refl.
  - intros H. rewrite (IH k H). apply orb_true_r.
Qed.

Lemma digit_not_star (n : N) : Base64.digit n <> "*"%char.
Proof.
  unfold Base64.digit.
  destruct (String.get (N.to_nat n) Base64.alphabet) as [c|] eqn:Hget; [|discriminate].
  intros ->. apply get_occurs in Hget. vm_compute in Hget. discriminate.
Qed.

Lemma occurs_cons4 (a b c d : ascii) (s : string) :
  a <> "*"%char -> b <> "*"%char -> c <> "*"%char -> d <> "*"%char ->
  ViteHooks.occurs "*" s = false ->
  ViteHooks.occurs "*" (Base64.cons4 a b c d s) = false.
Proof.
  intros Ha Hb Hc Hd Hs. unfold Base64.cons4. cbn [ViteHooks.occurs].
  rewrite Hs.
  rewrite (proj2 (Ascii.eqb_neq _ _)), (proj2 (Ascii.eqb_neq _ _)),
    (proj2 (Ascii.eqb_neq _ _)), (proj2 (Ascii.eqb_neq _ _)); try done;
    by apply not_eq_sym.
Qed.

Lemma encode_bytes_no_star (l : list N) :
  ViteHooks.occurs "*" (Base64.encode_bytes l) = false
  /\ (forall a, ViteHooks.occurs "*" (Base64.encode_bytes (a :: l)) = false)
  /\ (forall a b, ViteHooks.occurs "*" (Base64.encode_bytes (a :: b :: l)) = false).
Proof.
  induction l as [|c l (IH0 & IH1 & IH2)].
  - split; [reflexivity|]. split; intros; cbn [Base64.encode_bytes];
      apply occurs_cons4; try apply digit_not_star; try discriminate; reflexivity.
  - split; [apply IH1|]. split; [intros a; apply IH2|].
    intros a b. cbn [Base64.encode_bytes].
    apply occurs_cons4; try apply digit_not_star. exact IH0.
Qed.

Lemma occurs_Contains (c d : ascii) (s : string) :
  JsString.Contains s (String c (String d "")) -> ViteHooks.occurs c s = true.
Proof.
  intros (a & b & ->). induction a as [|x a IH].
  - rewrite append_empty_l, append_cons. simpl. by rewrite Ascii.eqb_refl.
  - rewrite append_cons. simpl. rewrite IH. apply orb_true_r.
Qed.

Lemma encoded_comment_assoc (body rest : string) :
  ("/* " +:+ body +:+ " */") +:+ rest = "/* " +:+ body +:+ " */" +:+ rest.
Proof. by rewrite !append_assoc. Qed.

(** X12. With [encodeWatermark] on, the stamped comment cannot be closed
    from inside: what stands between [/* ] and [ */] is base64 text, which
    holds no [*], whatever the license holder, version or custom text. *)
Theorem transform_encoded_is_closed (options : VitePlugin.Options)
    (env : gmap string string) (buildId : Z) (code id stamped : string) :
  VitePlugin.encodeWatermark options = Some true ->
  VitePlugin.transform (VitePlugin.watermarkPlugin options env buildId) code id
  = Some stamped ->
  exists body,
    stamped = "/* " +:+ body +:+ " */" +:+ String "010" code
    /\ ViteHooks.occurs "*" body = false
    /\ ~ JsString.Contains body "*/".
Proof.
  intros Henc.
  cbn -[existsb String.append pretty Base64.encode].
  rewrite Henc. cbn [default].
  repeat destruct (existsb _ _); cbn [negb]; try discriminate.
  intros [= <-]. eexists. split.
  - apply encoded_comment_assoc.
  - assert (forall s, ViteHooks.occurs "*" (Base64.encode s) = false) as Hno
      by (intros s; apply encode_bytes_no_star).
    split; [apply Hno|]. intros Hc. apply occurs_Contains in Hc.
    rewrite Hno in Hc. discriminate.
Qed.

Lemma transform_encoded_is_closed_witness :
  exists stamped body,
    VitePlugin.transform (VitePlugin.watermarkPlugin Samples.hostile_options ∅ 42)
      "x" "a.js" = Some stamped
    /\ stamped = "/* " +:+ body +:+ " */" +:+ String "010" "x"
    /\ ViteHooks.occurs "*" body = false
    /\ ~ JsString.Contains body "*/".
Proof.
  destruct (VitePlugin.transform _ "x" "a.js") as [stamped|] eqn:Ht;
    [|vm_compute in Ht; discriminate Ht].
  destruct (transform_encoded_is_closed Samples.hostile_options ∅ 42 "x" "a.js"
              stamped eq_refl Ht) as (body & Hs & Hno & Hclosed).
  exists stamped, body. by repeat split.
Defined.

(** ** The Vite plugin: transformIndexHtml *)

Lemma skip_append (p b : string) : ViteHooks.skip (String.length p) (p +:+ b) = b.
Proof.
  induction p as [|c p IH]; [by destruct b|]. rewrite append_cons. exact IH.
Qed.

Lemma replace_unfold (s pattern replacement : string) :
  ViteHooks.replace s pattern replacement =
  if JsString.startsWith s pattern then
    replacement +:+ ViteHooks.skip (String.length pattern) s
  else
    match s with
    | EmptyString => EmptyString
    | String c s' => String c (ViteHooks.replace s' pattern replacement)
    end.
Proof. by destruct s. Qed.

Lemma replace_absent (s pattern replacement : string) :
  ~ JsString.Contains s pattern -> ViteHooks.replace s pattern replacement = s.
Proof.
  induction s as [|c s IH]; intros Hno; rewrite replace_unfold.
  - destruct (JsString.startsWith "" pattern) eqn:Hp; [|done].
    destruct Hno. apply includes_spec. by rewrite includes_unfold, Hp.
  - destruct (JsString.startsWith (String c s) pattern) eqn:Hp.
    + destruct Hno. apply includes_spec. by rewrite includes_unfold, Hp.
    + f_equal. apply IH. intros (a & b & Hab). apply Hno.
      exists (String c a), b. rewrite append_cons. by rewrite Hab.
Qed.

Lemma replace_first (s pattern replacement : string) :
  JsString.Contains s pattern ->
  exists a b,
    s = a +:+ pattern +:+ b
    /\ (forall a' b', s = a' +:+ pattern +:+ b' -> (String.length a <= String.length a')%nat)
    /\ ViteHooks.replace s pattern replacement = a +:+ replacement +:+ b.
Proof.
  induction s as [|c s IH]; intros Hc; rewrite replace_unfold.
  - apply includes_spec in Hc. rewrite includes_unfold, orb_false_r in Hc.
    rewrite Hc. apply startsWith_spec in Hc as [b Hb].
    exists "", b. split; [done|]. split; [intros; simpl; lia|].
    rewrite Hb at 1. by rewrite skip_append.
  - destruct (JsString.startsWith (String c s) pattern) eqn:Hp.
    + apply startsWith_spec in Hp as [b Hb].
      exists "", b. split; [done|]. split; [intros; simpl; lia|].
      rewrite Hb at 1. by rewrite skip_append.
    + apply includes_spec in Hc. rewrite includes_unfold, Hp in Hc.
      apply includes_spec in Hc.
      destruct (IH Hc) as (a & b & Hs & Hmin & Hrep).
      exists (String c a), b. rewrite !append_cons. split; [by rewrite <- Hs|].
      split; [|by rewrite Hrep].
      intros [|c' a'] b' Heq.
      * rewrite append_empty_l in Heq.
        assert (JsString.startsWith (String c s) pattern = true) as Hp'
          by (apply startsWith_spec; by exists b').
        congruence.
      * rewrite append_cons in Heq. injection Heq as _ Heq.
        specialize (Hmin a' b' Heq). simpl. lia.
Qed.

(** X13. A page without [</head>] comes back from [transformIndexHtml]
    unchanged: no build id is added anywhere. *)
Theorem transformIndexHtml_without_head (buildId : Z) (html : string) :
  ~ JsString.Contains html "</head>" ->
  ViteHooks.transformIndexHtml buildId html = html.
Proof. apply replace_absent. Qed.

Lemma transformIndexHtml_without_head_witness :
  ViteHooks.transformIndexHtml 42 "<body>hello</body>" = "<body>hello</body>".
Proof.
  apply (transformIndexHtml_without_head 42 "<body>hello</body>").
  intros H. apply includes_spec in H. vm_compute in H. discriminate H.
Defined.

(** X14. In a page with [</head>], [transformIndexHtml] touches the first
    [</head>] only: two spaces, the build-id meta tag and a newline are put
    in front of it, and the text before and after it is kept as it is. *)
Theorem transformIndexHtml_first_head (buildId : Z) (html : string) :
  JsString.Contains html "</head>" ->
  exists before after,
    html = before +:+ "</head>" +:+ after
    /\ (forall a' b', html = a' +:+ "</head>" +:+ b' ->
                      (String.length before <= String.length a')%nat)
    /\ ViteHooks.transformIndexHtml buildId html
       = before +:+ ("  " +:+ ViteHooks.buildMeta buildId +:+ String "010" "</head>")
           +:+ after.
Proof. apply replace_first. Qed.

Lemma transformIndexHtml_first_head_witness :
  exists before after,
    Samples.two_heads = before +:+ "</head>" +:+ after
    /\ (forall a' b', Samples.two_heads = a' +:+ "</head>" +:+ b' ->
                      (String.length before <= String.length a')%nat)
    /\ ViteHooks.transformIndexHtml 42 Samples.two_heads
       = before +:+ ("  " +:+ ViteHooks.buildMeta 42 +:+ String "010" "</head>")
           +:+ after.
Proof.
  apply (transformIndexHtml_first_head 42 Samples.two_heads).
  exists "<head>", "<body></head></body>". reflexivity.
Defined.

Example transformIndexHtml_two_heads :
  ViteHooks.transformIndexHtml 42 Samples.two_heads
  = "<head>  <meta name=" +:+ ViteHooks.dquote +:+ "build-id" +:+ ViteHooks.dquote
      +:+ " content=" +:+ ViteHooks.dquote +:+ "42" +:+ ViteHooks.dquote +:+ ">"
      +:+ String "010" "</head><body></head></body>".
Proof. vm_compute. reflexivity. Qed.

(** ** Configuration: fallbacks *)

Lemma env_or_default_iff (env : gmap string string) (name fallback : string) :
  env_or env name fallback = fallback
  <-> env !! name = None \/ env !! name = Some "" \/ env !! name = Some fallback.
Proof.
  unfold env_or, JsString.or_else, JsString.truthy.
  destruct (env !! name) as [v|]; [|by split; auto].
  destruct (String.eqb v "") eqn:Hv; simpl.
  - apply String.eqb_eq in Hv as ->. split; auto.
  - apply String.eqb_neq in Hv. split.
    + intros ->. auto.
    + intros [H | [[= H] | [= H]]]; done.
Qed.

Lemma env_or_set (env : gmap string string) (name fallback v : string) :
  env !! name = Some v -> v <> "" -> env_or env name fallback = v.
Proof.
  intros Hv Hne. unfold env_or, JsString.or_else, JsString.truthy. rewrite Hv.
  apply String.eqb_neq in Hne. by rewrite Hne.
Qed.

(** X15. The built-in secrets are what the application runs with unless a
    non-empty one is configured: the session secret is the default text
    exactly when SESSION_SECRET is unset, empty or that very text, and a
    non-empty SESSION_SECRET is used as it is; the same holds of the JWT
    secret and JWT_SECRET. *)
Theorem secrets_fall_back_to_defaults (env : gmap string string) :
  (AppConfig.secret (AppConfig.sessionConfig env) = AppConfig.default_session_secret
   <-> env !! "SESSION_SECRET" = None \/ env !! "SESSION_SECRET" = Some ""
       \/ env !! "SESSION_SECRET" = Some AppConfig.default_session_secret)
  /\ (forall v, env !! "SESSION_SECRET" = Some v -> v <> "" ->
                AppConfig.secret (AppConfig.sessionConfig env) = v)
  /\ (AppConfig.jwtSecret (AppConfig.authConfig env) = AppConfig.default_jwt_secret
      <-> env !! "JWT_SECRET" = None \/ env !! "JWT_SECRET" = Some ""
          \/ env !! "JWT_SECRET" = Some AppConfig.default_jwt_secret)
  /\ (forall v, env !! "JWT_SECRET" = Some v -> v <> "" ->
                AppConfig.jwtSecret (AppConfig.authConfig env) = v).
Proof.
  cbn [AppConfig.sessionConfig AppConfig.authConfig AppConfig.secret AppConfig.jwtSecret].
  split; [apply env_or_default_iff|]. split; [intros v; apply env_or_set|].
  split; [apply env_or_default_iff|]. intros v; apply env_or_set.
Qed.

Lemma secrets_fall_back_to_defaults_witness :
  AppConfig.secret (AppConfig.sessionConfig {[ "SESSION_SECRET" := "s3cr3t" ]}) = "s3cr3t".
Proof.
  destruct (secrets_fall_back_to_defaults {[ "SESSION_SECRET" := "s3cr3t" ]})
    as (_ & H & _).
  apply H; [reflexivity | discriminate].
Defined.

(** ** Configuration: ports *)

Lemma digit_of_pretty_char (d : N) :
  (d < 10)%N -> JsDate.digit_of (pretty_N_char d) = Some (Z.of_N d).
Proof.
  intros Hd.
  assert (d = 0 \/ d = 1 \/ d = 2 \/ d = 3 \/ d = 4 \/ d = 5 \/ d = 6 \/ d = 7
          \/ d = 8 \/ d = 9)%N as H by lia.
  repeat (destruct H as [-> | H]; [reflexivity|]). by subst.
Qed.

Lemma leading_digits_pretty_go (x : N) :
  (0 < x)%N ->
  forall s acc, default 0 acc = 0 ->
    Config.leading_digits (pretty_N_go x s) acc
    = Config.leading_digits s (Some (Z.of_N x)).
Proof.
  induction (N.lt_wf_0 x) as [x _ IH]. intros Hpos s acc Hacc.
  rewrite pretty_N_go_step by done.
  assert (x `mod` 10 < 10)%N as Hmod by (by apply N.mod_lt).
  pose proof (N.div_mod x 10 ltac:(done)) as Hdm.
  destruct (decide (x `div` 10 = 0)%N) as [Hz | Hnz].
  - rewrite Hz, pretty_N_go_0. cbn [Config.leading_digits].
    rewrite digit_of_pretty_char by done. rewrite Hacc.
    by replace (10 * 0 + Z.of_N (x `mod` 10)) with (Z.of_N x) by lia.
  - rewrite IH; [| apply N.div_lt; lia | lia | done].
    cbn [Config.leading_digits]. rewrite digit_of_pretty_char by done.
    cbn [default id].
    by replace (10 * Z.of_N (x `div` 10) + Z.of_N (x `mod` 10)) with (Z.of_N x) by lia.
Qed.

Lemma starts_with_digit_pretty_go (x : N) :
  forall s, (0 < x)%N \/ AppConfig.starts_with_digit s = true ->
            AppConfig.starts_with_digit (pretty_N_go x s) = true.
Proof.
  induction (N.lt_wf_0 x) as [x _ IH]. intros s Hs.
  destruct (decide (x = 0)%N) as [-> | Hnz].
  - rewrite pretty_N_go_0. destruct Hs as [H | H]; [lia | done].
  - rewrite pretty_N_go_step by lia. apply IH; [apply N.div_lt; lia|].
    right. cbn [AppConfig.starts_with_digit]. apply bool_decide_eq_true.
    rewrite digit_of_pretty_char; [by eexists | by apply N.mod_lt].
Qed.

Lemma parseInt10_digits (s : string) :
  AppConfig.starts_with_digit s = true ->
  Config.parseInt10 s = Config.leading_digits s None.
Proof.
  destruct s as [|c s]; [done|]. cbn [AppConfig.starts_with_digit].
  intros H. apply bool_decide_eq_true in H as [d Hd].
  destruct c as [[] [] [] [] [] [] [] []]; try discriminate Hd; reflexivity.
Qed.

Lemma pretty_nonneg_digits (n : Z) :
  0 <= n -> AppConfig.starts_with_digit (pretty n) = true.
Proof.
  destruct n as [|p|p]; [reflexivity | | lia]. intros _.
  unfold pretty, pretty_Z, pretty, pretty_positive, pretty, pretty_N.
  rewrite decide_False by done.
  apply starts_with_digit_pretty_go. left. lia.
Qed.

Lemma parseInt10_pretty (n : Z) : 0 <= n -> Config.parseInt10 (pretty n) = Some n.
Proof.
  intros Hn. rewrite parseInt10_digits by by apply pretty_nonneg_digits.
  destruct n as [|p|p]; [reflexivity | | lia].
  unfold pretty, pretty_Z, pretty, pretty_positive, pretty, pretty_N.
  rewrite decide_False by done.
  rewrite leading_digits_pretty_go; [reflexivity | lia | reflexivity].
Qed.

(** X16. The ports.  With PORT unset or empty the server port is 5000, and
    with PORT holding the decimal text of an integer [n] from 0 to
    2^53 - 1 (which JavaScript numbers hold exactly) it is [n];
    likewise the mail port is 587 without SMTP_PORT and [n] with the
    decimal text of [n]. *)
Theorem ports_from_environment (env : gmap string string) :
  (env !! "PORT" = None \/ env !! "PORT" = Some "" ->
   AppConfig.server_port (AppConfig.serverConfig env) = Some 5000)
  /\ (forall n, 0 <= n <= AppConfig.max_safe_integer ->
                env !! "PORT" = Some (pretty n) ->
                AppConfig.server_port (AppConfig.serverConfig env) = Some n)
  /\ (env !! "SMTP_PORT" = None \/ env !! "SMTP_PORT" = Some "" ->
      port (email (notificationConfig env)) = Some 587)
  /\ (forall n, 0 <= n <= AppConfig.max_safe_integer ->
                env !! "SMTP_PORT" = Some (pretty n) ->
                port (email (notificationConfig env)) = Some n).
Proof.
  cbn [AppConfig.serverConfig AppConfig.server_port notificationConfig email port].
  assert (forall name fallback,
            env !! name = None \/ env !! name = Some "" ->
            env_or env name fallback = fallback) as Hunset.
  { intros name fallback H. apply env_or_default_iff.
    destruct H; auto. }
  assert (forall name fallback n, 0 <= n -> env !! name = Some (pretty n) ->
            Config.parseInt10 (env_or env name fallback) = Some n) as Hset.
  { intros name fallback n Hn Hv.
    rewrite (env_or_set env name fallback (pretty n) Hv).
    - by apply parseInt10_pretty.
    - intros Hempty. pose proof (pretty_nonneg_digits n Hn) as Hd.
      rewrite Hempty in Hd. discriminate Hd. }
  split; [intros H; by rewrite (Hunset _ _ H)|].
  split; [intros n [Hn _]; by apply Hset|].
  split; [intros H; by rewrite (Hunset _ _ H)|].
  intros n [Hn _]; by apply Hset.
Qed.

Lemma ports_from_environment_witness :
  AppConfig.server_port (AppConfig.serverConfig {[ "PORT" := "8080" ]}) = Some 8080
  /\ AppConfig.server_port (AppConfig.serverConfig ∅) = Some 5000.
Proof.
  split.
  - destruct (ports_from_environment {[ "PORT" := "8080" ]}) as (_ & H & _).
    apply (H 8080); [unfold AppConfig.max_safe_integer; lia | reflexivity].
  - destruct (ports_from_environment ∅) as (H & _).
    apply H. left. reflexivity.
Defined.

(** ** The migration: what it leaves alone and how it ends *)

Lemma migration_run (s : Schema) :
  exists s1,
    block_enum s = inl s1
    /\ migration s = match block_column s1 with
                     | inl s2 => (s2, None)
                     | inr e => (s1, Some e)
                     end.
Proof.
  destruct (block_enum_result s) as (s1 & Hb & _). exists s1. split; [done|].
  unfold migration. cbn [run_script]. rewrite Hb. by destruct (block_column s1).
Qed.

Lemma block_enum_frame (s s1 : Schema) (n : string) :
  block_enum s = inl s1 -> n <> "transaction_type" ->
  enum_types s1 !! n = enum_types s !! n.
Proof.
  unfold block_enum, create_enum. intros Hb Hne.
  destruct (pg_type_exists s "transaction_type"); simpl in Hb.
  - by injection Hb as <-.
  - injection Hb as <-. cbn [enum_types]. by rewrite lookup_insert_ne.
Qed.


Lemma migration_other_tables (s : Schema) :
  (forall t, t <> "synthetic_transactions" ->
             tables (fst (migration s)) !! t = tables s !! t)
  /\ (tables s !! "synthetic_transactions" = None ->
      tables (fst (migration s)) !! "synthetic_transactions" = None).
Proof.
  destruct (migration_run s) as (s1 & Hb1 & ->).
  destruct (block_enum_result s) as (s1' & Hb1' & _ & Htb1 & _).
  rewrite Hb1 in Hb1'. injection Hb1' as <-.
  pose proof (block_column_result s1) as Hc.
  destruct (block_column s1) as [s2|e]; cbn [fst].
  - destruct Hc as (_ & _ & Htb & _ & Hadd).
    split; [intros t Ht; rewrite (Htb t Ht); by rewrite Htb1|].
    intros Hnone. rewrite <- Htb1 in Hnone.
    assert (column_exists s1 "synthetic_transactions" "check_interval" = false) as Hex
      by (unfold column_exists; by rewrite Hnone).
    destruct (Hadd Hex) as (cols & Hsome & _). congruence.
  - split; [intros t Ht; by rewrite Htb1|]. by rewrite Htb1.
Qed.

(** X17. The script touches nothing else: every enum type other than
    transaction_type and every table other than synthetic_transactions is
    as before; the columns synthetic_transactions had are kept, in order,
    with at most new ones after them; and a missing synthetic_transactions
    is not created. *)
Theorem migration_frame (s : Schema) :
  (forall n, n <> "transaction_type" ->
             enum_types (fst (migration s)) !! n = enum_types s !! n)
  /\ (forall t, t <> "synthetic_transactions" ->
                tables (fst (migration s)) !! t = tables s !! t)
  /\ (forall cols, tables s !! "synthetic_transactions" = Some cols ->
        exists added,
          tables (fst (migration s)) !! "synthetic_transactions" = Some (cols ++ added))
  /\ (tables s !! "synthetic_transactions" = None ->
      tables (fst (migration s)) !! "synthetic_transactions" = None).
Proof.
  destruct (migration_other_tables s) as [Hother Hnone].
  split; [|split; [done | split; [|done]]].
  - destruct (migration_run s) as (s1 & Hb1 & ->). intros n Hn.
    pose proof (block_column_result s1) as Hc.
    destruct (block_column s1) as [s2|e]; cbn [fst].
    + destruct Hc as (_ & -> & _). by eapply block_enum_frame.
    + by eapply block_enum_frame.
  - intros cols Hcols.
    destruct (column_exists s "synthetic_transactions" "check_interval") eqn:Hex.
    + destruct (migration_schema s) as (_ & _ & Hsame & _).
      destruct (Hsame Hex) as [-> _]. exists []. by rewrite app_nil_r.
    + destruct (migration_schema s) as (_ & _ & _ & Hadd).
      destruct (Hadd cols Hcols Hex) as [-> _]. by eexists.
Qed.

Lemma migration_frame_witness :
  exists added,
    tables (fst (migration Samples.bare_table)) !! "synthetic_transactions"
    = Some ([ {| column_name := "id"; data_type := TInteger;
                 not_null := true; column_default := None |} ] ++ added).
Proof.
  destruct (migration_frame Samples.bare_table) as (_ & _ & H & _).
  apply H. reflexivity.
Defined.



(** X19. After a run that ends without error, a type named
    transaction_type and the column check_interval of
    synthetic_transactions both exist, whatever the catalog was before. *)
Theorem migration_postcondition (s : Schema) :
  snd (migration s) = None ->
  pg_type_exists (fst (migration s)) "transaction_type" = true
  /\ column_exists (fst (migration s)) "synthetic_transactions" "check_interval" = true.
Proof.
  destruct (migration_run s) as (s1 & Hb1 & ->).
  destruct (block_enum_result s) as (s1' & Hb1' & Hty & _).
  rewrite Hb1 in Hb1'. injection Hb1' as <-.
  pose proof (block_column_result s1) as Hc.
  destruct (block_column s1) as [s2|e]; cbn [fst snd]; [|discriminate].
  intros _. destruct Hc as (Hcol & Hen & Htb & _).
  split; [|done].
  rewrite (pg_type_exists_ext s1 s2 "transaction_type" Hen); [done|].
  by apply Htb.
Qed.

Lemma migration_postcondition_witness :
  pg_type_exists (fst (migration Samples.bare_table)) "transaction_type" = true
  /\ column_exists (fst (migration Samples.bare_table))
       "synthetic_transactions" "check_interval" = true.
Proof.
  apply (migration_postcondition Samples.bare_table). vm_compute. reflexivity.
Defined.

Lemma column_exists_false_not_in (cols : list Column) (c : string) :
  existsb (fun col => String.eqb (column_name col) c) cols = false ->
  c ∉ column_name <$> cols.
Proof.
  induction cols as [|col cols IH]; simpl.
  - intros _. apply not_elem_of_nil.
  - intros H. apply orb_false_iff in H as [Hc Hrest].
    apply String.eqb_neq in Hc. apply not_elem_of_cons. split; [done | by apply IH].
Qed.

(** X20. The script keeps column names unique: if no table of the catalog
    has two columns of one name, the same is true after the run. *)
Theorem migration_keeps_columns_unique (s : Schema) :
  Catalog.unique_columns s -> Catalog.unique_columns (fst (migration s)).
Proof.
  intros Huniq t cols Ht.
  destruct (migration_other_tables s) as [Hother Hnone].
  destruct (decide (t = "synthetic_transactions")) as [-> | Hne].
  - destruct (column_exists s "synthetic_transactions" "check_interval") eqn:Hex.
    + destruct (migration_schema s) as (_ & _ & Hsame & _).
      destruct (Hsame Hex) as [Htb _]. rewrite Htb in Ht. by eapply Huniq.
    + destruct (tables s !! "synthetic_transactions") as [old|] eqn:Hold.
      * destruct (migration_schema s) as (_ & _ & _ & Hadd).
        destruct (Hadd old Hold Hex) as [Hnew _]. rewrite Hnew in Ht.
        injection Ht as <-. rewrite fmap_app. apply NoDup_app.
        split; [by eapply Huniq|]. split; [|apply NoDup_singleton].
        intros x Hx. cbn. rewrite list_elem_of_singleton. intros ->.
        unfold column_exists in Hex. rewrite Hold in Hex.
        by apply column_exists_false_not_in in Hex.
      * rewrite (Hnone eq_refl) in Ht. discriminate.
  - rewrite (Hother t Hne) in Ht. by eapply Huniq.
Qed.

Lemma migration_keeps_columns_unique_witness :
  Catalog.unique_columns (fst (migration Samples.bare_table)).
Proof.
  apply (migration_keeps_columns_unique Samples.bare_table).
  intros t cols Ht. unfold Samples.bare_table in Ht. cbn [tables] in Ht.
  apply lookup_singleton_Some in Ht as [_ <-].
  cbn. apply NoDup_singleton.
Defined.

(** ** The Vite plugin: when the stamp is a comment *)




















